(** * Booking availability of the Stelace marketplace

    A shallow embedding of [getAvailabilityPeriods] and
    [getAvailabilityDates] of [api/services/BookingService.js], and the
    properties of the availability specification proved (or refuted) on it.

    Conventions of the embedding.
    - Dates are the strings the JSDoc announces ([@param {String} startDate]).
      lodash compares them with the JavaScript operators [<] and [>], that is
      lexicographically by code unit; [String.compare] is that order on the
      ASCII strings dates are made of.  On ISO-8601 UTC strings of one format
      (what [toISOString] produces) it is the chronological order.
    - Quantities are integers ([Z]); the JavaScript numbers of the source are
      exact on integers below 2^53.
    - [maxQuantity] and [newBooking] are optional: [None] is [undefined].
      An absent [futureBookings] or [listingAvailabilities] is the empty list
      (the default values of the parameters).
    - Arrays are lists, indexed with stdpp's lookup; plain objects used as
      dictionaries are [gmap string _].
    - The moment library is not part of the repository: the one expression
      that uses it is a parameter of the range-mode function. *)

From Stdlib Require Import ZArith Ascii String List Bool Lia Permutation.
From Stdlib Require OrdersEx.
From stdpp Require Import gmap strings list sorting.

Local Open Scope string_scope.
Local Open Scope Z_scope.
Local Open Scope list_scope.

(** ** Dates and their order *)

Abbreviation date := string (only parsing).

Definition date_le (a b : date) : Prop := String.leb a b = true.
Definition date_lt (a b : date) : Prop := String.ltb a b = true.

(** ** Records of the source *)

(** [futureBookings[i]] and [newBooking]: [{ startDate, endDate, quantity }].
    Date mode reads [startDate] and [quantity] only. *)
Module Booking.
Record t := mk { startDate : date; endDate : date; quantity : Z }.
End Booking.

(** [listingAvailabilities[i]]:
    [{ startDate, endDate, available, quantity }]. *)
Module ListingAvailability.
Record t := mk
  { startDate : date; endDate : date; available : bool; quantity : Z }.
End ListingAvailability.

(** The tag [newPeriod] of a step or of a timeline entry. *)
Inductive NewPeriod := PeriodStart | PeriodEnd.

(** An element of [dateSteps] in range mode: [{ date, delta, newPeriod? }]. *)
Module Step.
Record t := mk { date : date; delta : Z; newPeriod : option NewPeriod }.
End Step.

(** An element of [availablePeriods]: [{ date, quantity, newPeriod? }]. *)
Module Period.
Record t := mk { date : date; quantity : Z; newPeriod : option NewPeriod }.
Definition setQuantity (q : Z) (p : t) : t := mk (date p) q (newPeriod p).
Definition setNewPeriod (n : NewPeriod) (p : t) : t :=
  mk (date p) (quantity p) (Some n).
End Period.

(** A bucket of [dateSteps] in date mode: [{ date, quantity, selected? }];
    [selected = false] stands for the absent property. *)
Module DateStep.
Record t := mk { date : date; quantity : Z; selected : bool }.
Definition addQuantity (q : Z) (d : t) : t :=
  mk (date d) (quantity d + q) (selected d).
Definition select (d : t) : t := mk (date d) (quantity d) true.
End DateStep.

(** [_.pick(listingAvailability, ['startDate', 'quantity'])]. *)
Module Exposed.
Record t := mk { startDate : date; quantity : Z }.
End Exposed.

(** ** lodash *)

(** [_.sortBy(collection, iteratee)] on string criteria: a stable sort,
    ascending for [<] on strings (lodash compares the criteria first and the
    original indexes on ties).  Insertion from the right puts an element
    before the elements of equal criterion that followed it. *)
Section SortBy.
Context {A : Type} (iteratee : A -> string).

Fixpoint insertBy (x : A) (l : list A) : list A :=
  match l with
  | [] => [x]
  | y :: l' =>
      if String.leb (iteratee x) (iteratee y) then x :: y :: l'
      else y :: insertBy x l'
  end.

Definition sortBy (l : list A) : list A := foldr insertBy [] l.
End SortBy.

(** [array.push(x)]. *)
Definition push {A : Type} (l : list A) (x : A) : list A := l ++ [x].

(** ** Range mode: [getAvailabilityPeriods] *)

(** Lines 457-498: the three loops that fill [dateSteps]. *)
Definition dateSteps (futureBookings : list Booking.t)
    (listingAvailabilities : list ListingAvailability.t)
    (newBooking : option Booking.t) : list Step.t :=
  let dateSteps := [] in
  let dateSteps :=
    fold_left (fun acc booking =>
      let acc := push acc (Step.mk (Booking.startDate booking)
                             (Booking.quantity booking) None) in
      push acc (Step.mk (Booking.endDate booking)
                  (- Booking.quantity booking) None))
      futureBookings dateSteps in
  let dateSteps :=
    fold_left (fun acc la =>
      let startSign := if ListingAvailability.available la then -1 else 1 in
      let endSign := -1 * startSign in
      let acc := push acc (Step.mk (ListingAvailability.startDate la)
                             (startSign * ListingAvailability.quantity la)
                             None) in
      push acc (Step.mk (ListingAvailability.endDate la)
                  (endSign * ListingAvailability.quantity la) None))
      listingAvailabilities dateSteps in
  match newBooking with
  | Some nb =>
      let dateSteps := push dateSteps
        (Step.mk (Booking.startDate nb) (Booking.quantity nb)
           (Some PeriodStart)) in
      push dateSteps
        (Step.mk (Booking.endDate nb) (- Booking.quantity nb)
           (Some PeriodEnd))
  | None => dateSteps
  end.

(** The variables of the sweep (lines 502-506).  [oldStep] is a reference to
    an object that sits in [availablePeriods]: it is the index of that
    element, so that [oldStep.quantity = quantity] updates the array. *)
Module Sweep.
Record t := mk
  { availablePeriods : list Period.t;
    quantity : Z;
    oldStep : option nat;
    isAvailable : bool }.
Definition init : t := mk [] 0 None true.
End Sweep.

(** [typeof maxQuantity === 'number' && q > maxQuantity]. *)
Definition exceeds (q : Z) (maxQuantity : option Z) : bool :=
  match maxQuantity with
  | Some m => q >? m
  | None => false
  end.

(** One iteration of the loop of lines 508-530. *)
Definition sweepStep (newBooking : option Booking.t) (maxQuantity : option Z)
    (st : Sweep.t) (step : Step.t) : Sweep.t :=
  let quantity := Sweep.quantity st + Step.delta step in
  let currStep := Period.mk (Step.date step) quantity None in
  let isAvailable :=
    if Sweep.isAvailable st && bool_decide (is_Some newBooking)
       && exceeds (Period.quantity currStep) maxQuantity
    then false else Sweep.isAvailable st in
  let currStep :=
    match Step.newPeriod step with
    | Some n => Period.setNewPeriod n currStep
    | None => currStep
    end in
  let pushed :=
    Sweep.mk (push (Sweep.availablePeriods st) currStep) quantity
      (Some (length (Sweep.availablePeriods st))) isAvailable in
  match Sweep.oldStep st with
  | Some i =>
      match Sweep.availablePeriods st !! i with
      | Some old =>
          if String.eqb (Period.date currStep) (Period.date old)
          then Sweep.mk
                 (alter (Period.setQuantity quantity) i
                    (Sweep.availablePeriods st))
                 quantity (Some i) isAvailable
          else pushed
      | None => pushed
      end
  | None => pushed
  end.

Module PeriodsResult.
Record t := mk { isAvailable : bool; availablePeriods : list Period.t }.
End PeriodsResult.

Section RangeMode.
(** [d => moment(d).subtract({ d: 1 }).toISOString()]: the calendar
    arithmetic of the moment library, a parameter of the model. *)
Variable subtractDay : date -> date.

(** Lines 532-538. *)
Definition withAnchor (availablePeriods : list Period.t) : list Period.t :=
  match availablePeriods with
  | firstStep :: _ =>
      Period.mk (subtractDay (Period.date firstStep)) 0 None
        :: availablePeriods
  | [] => availablePeriods
  end.

Definition getAvailabilityPeriods (futureBookings : list Booking.t)
    (listingAvailabilities : list ListingAvailability.t)
    (newBooking : option Booking.t) (maxQuantity : option Z)
    : PeriodsResult.t :=
  let dateSteps := dateSteps futureBookings listingAvailabilities newBooking in
  let sortedSteps := sortBy Step.date dateSteps in
  let st := fold_left (sweepStep newBooking maxQuantity) sortedSteps
              Sweep.init in
  PeriodsResult.mk (Sweep.isAvailable st)
    (withAnchor (Sweep.availablePeriods st)).
End RangeMode.

(** ** Date mode: [getAvailabilityDates] *)

(** Lines 570-579 and 583-592: fetch the bucket of a date, create it when it
    is missing, and add a quantity to it.  The bucket is an object held by
    the dictionary, so the addition is an update of the dictionary. *)
Definition addToDateStep (d : date) (q : Z)
    (dateSteps : gmap string DateStep.t) : gmap string DateStep.t :=
  let dateSteps :=
    match dateSteps !! d with
    | Some _ => dateSteps
    | None => <[d := DateStep.mk d 0 false]> dateSteps
    end in
  alter (DateStep.addQuantity q) d dateSteps.

(** Lines 567-594. *)
Definition dateBuckets (futureBookings : list Booking.t)
    (newBooking : option Booking.t) : gmap string DateStep.t :=
  let dateSteps : gmap string DateStep.t := ∅ in
  let dateSteps :=
    fold_left (fun acc booking =>
      addToDateStep (Booking.startDate booking) (Booking.quantity booking) acc)
      futureBookings dateSteps in
  match newBooking with
  | Some nb =>
      let dateSteps :=
        addToDateStep (Booking.startDate nb) (Booking.quantity nb) dateSteps in
      alter DateStep.select (Booking.startDate nb) dateSteps
  | None => dateSteps
  end.

(** [_.values(object)].  JavaScript enumerates the keys in insertion order
    (integer-like keys first); the buckets have pairwise distinct dates, so
    the sort that follows does not depend on the enumeration order (lemma
    [sortBy_values_any_order]). *)
Definition values {V : Type} (m : gmap string V) : list V :=
  (map_to_list m).*2.

(** [_.indexBy(collection, 'startDate')]: the last element of a key wins. *)
Definition indexBy (listingAvailabilities : list ListingAvailability.t)
    : gmap string ListingAvailability.t :=
  fold_left (fun acc la => <[ListingAvailability.startDate la := la]> acc)
    listingAvailabilities ∅.

Definition pick (la : ListingAvailability.t) : Exposed.t :=
  Exposed.mk (ListingAvailability.startDate la)
    (ListingAvailability.quantity la).

Module DatesResult.
Record t := mk
  { isAvailable : bool;
    listingAvailabilities : list Exposed.t;
    availableDates : list DateStep.t }.
End DatesResult.

(** Lines 604-612. *)
Definition currentMaxQuantity
    (listingAvailabilities : list ListingAvailability.t)
    (newBooking : option Booking.t) (maxQuantity : option Z) : option Z :=
  let indexedListingAvailabilities := indexBy listingAvailabilities in
  match newBooking, maxQuantity with
  | Some nb, Some m =>
      match indexedListingAvailabilities !! Booking.startDate nb with
      | Some listingAvailability =>
          Some (ListingAvailability.quantity listingAvailability)
      | None => Some m
      end
  | _, _ => None
  end.

(** The function returns [None] where the source would throw: reading
    [.quantity] of an absent bucket at line 614 is a [TypeError]. *)
Definition getAvailabilityDates (futureBookings : list Booking.t)
    (listingAvailabilities : list ListingAvailability.t)
    (newBooking : option Booking.t) (maxQuantity : option Z)
    : option DatesResult.t :=
  let dateSteps := dateBuckets futureBookings newBooking in
  let availableDates := sortBy DateStep.date (values dateSteps) in
  let exposedListingAvailabilities := map pick listingAvailabilities in
  let currentMaxQuantity :=
    currentMaxQuantity listingAvailabilities newBooking maxQuantity in
  match newBooking, currentMaxQuantity with
  | Some nb, Some cur =>
      match dateSteps !! Booking.startDate nb with
      | Some dateStep =>
          Some (DatesResult.mk
                  (negb (DateStep.quantity dateStep >? cur))
                  exposedListingAvailabilities availableDates)
      | None => None
      end
  | _, _ =>
      Some (DatesResult.mk true exposedListingAvailabilities availableDates)
  end.

(** * Specification vocabulary *)

(** The orders that a string criterion induces on the sorted elements. *)
Definition le_by {A : Type} (f : A -> string) : relation A :=
  fun x y => date_le (f x) (f y).
Definition lt_by {A : Type} (f : A -> string) : relation A :=
  fun x y => date_lt (f x) (f y).

(** The steps that one reservation, one declaration and the candidate
    contribute to [dateSteps]. *)
Definition bookingSteps (booking : Booking.t) : list Step.t :=
  [ Step.mk (Booking.startDate booking) (Booking.quantity booking) None;
    Step.mk (Booking.endDate booking) (- Booking.quantity booking) None ].

Definition availabilitySteps (la : ListingAvailability.t) : list Step.t :=
  let startSign := if ListingAvailability.available la then -1 else 1 in
  let endSign := -1 * startSign in
  [ Step.mk (ListingAvailability.startDate la)
      (startSign * ListingAvailability.quantity la) None;
    Step.mk (ListingAvailability.endDate la)
      (endSign * ListingAvailability.quantity la) None ].

Definition newBookingSteps (newBooking : Booking.t) : list Step.t :=
  [ Step.mk (Booking.startDate newBooking) (Booking.quantity newBooking)
      (Some PeriodStart);
    Step.mk (Booking.endDate newBooking) (- Booking.quantity newBooking)
      (Some PeriodEnd) ].

(** The sum of the deltas of a list of steps. *)
Definition sumDeltas (l : list Step.t) : Z :=
  foldr (fun s acc => Step.delta s + acc) 0 l.

(** The running totals of a sweep that starts from [q]: one per step, read
    right after the step's delta is added. *)
Fixpoint runningTotals (q : Z) (l : list Step.t) : list Z :=
  match l with
  | [] => []
  | s :: l' => (q + Step.delta s) :: runningTotals (q + Step.delta s) l'
  end.

(** The steps dated at or before the instant [t]. *)
Definition upTo (t : date) (l : list Step.t) : list Step.t :=
  List.filter (fun s => String.leb (Step.date s) t) l.

(** A timeline read as a step function: the quantity of the last entry dated
    at or before [t], and 0 before every entry. *)
Definition quantityAt (timeline : list Period.t) (t : date) : Z :=
  fold_left (fun acc p =>
    if String.leb (Period.date p) t then Period.quantity p else acc)
    timeline 0.

(** The loop of lines 508-530 on its own. *)
Definition sweep (newBooking : option Booking.t) (maxQuantity : option Z)
    (sortedSteps : list Step.t) : Sweep.t :=
  fold_left (sweepStep newBooking maxQuantity) sortedSteps Sweep.init.

(** The timeline entry that a step pushes when the running total is [q]. *)
Definition entryOf (q : Z) (step : Step.t) : Period.t :=
  Period.mk (Step.date step) q (Step.newPeriod step).

(** The latch of line 516. *)
Definition latch (newBooking : option Booking.t) (maxQuantity : option Z)
    (isAvailable : bool) (q : Z) : bool :=
  if isAvailable && bool_decide (is_Some newBooking) && exceeds q maxQuantity
  then false else isAvailable.

(** What the sweep has established once it has read the sorted steps [l]. *)
Record SweepInv (nb : option Booking.t) (mq : option Z)
    (l : list Step.t) (st : Sweep.t) : Prop := mkSweepInv
  { inv_quantity : Sweep.quantity st = sumDeltas l;
    inv_shape :
      (l = [] /\ Sweep.availablePeriods st = [] /\ Sweep.oldStep st = None)
      \/ (exists l0 x init last,
            l = l0 ++ [x]
            /\ Sweep.availablePeriods st = init ++ [last]
            /\ Sweep.oldStep st = Some (length init)
            /\ Period.date last = Step.date x
            /\ Period.quantity last = Sweep.quantity st);
    inv_sorted :
      StronglySorted date_lt (Period.date <$> Sweep.availablePeriods st);
    inv_dates : forall d,
      d ∈ (Period.date <$> Sweep.availablePeriods st)
      <-> d ∈ (Step.date <$> l);
    inv_at : forall t,
      quantityAt (Sweep.availablePeriods st) t = sumDeltas (upTo t l);
    inv_latch :
      Sweep.isAvailable st
      = negb (bool_decide (is_Some nb)
              && existsb (fun q => exceeds q mq) (runningTotals 0 l));
    inv_head :
      head (Period.date <$> Sweep.availablePeriods st)
      = head (Step.date <$> l);
    inv_totals :
      Forall (fun p => Period.quantity p ∈ runningTotals 0 l)
        (Sweep.availablePeriods st);
    inv_distinct :
      NoDup (Step.date <$> l) ->
      Period.quantity <$> Sweep.availablePeriods st = runningTotals 0 l;
    inv_tag : forall p,
      p ∈ Sweep.availablePeriods st ->
      exists l1 s l2,
        l = l1 ++ s :: l2
        /\ Step.date s = Period.date p
        /\ Step.newPeriod s = Period.newPeriod p
        /\ Forall (fun y => Step.date y <> Period.date p) l1 }.

(** The sorted steps of a call (line 500) and the timeline that the sweep
    builds from them, before the anchor is prepended. *)
Definition sortedSteps (futureBookings : list Booking.t)
    (listingAvailabilities : list ListingAvailability.t)
    (newBooking : option Booking.t) : list Step.t :=
  sortBy Step.date (dateSteps futureBookings listingAvailabilities newBooking).

Definition timeline (futureBookings : list Booking.t)
    (listingAvailabilities : list ListingAvailability.t)
    (newBooking : option Booking.t) (maxQuantity : option Z)
    : list Period.t :=
  Sweep.availablePeriods
    (sweep newBooking maxQuantity
       (sortedSteps futureBookings listingAvailabilities newBooking)).

(** The dates of the events of a call: the bounds of the reservations, of
    the declarations and of the candidate. *)
Definition eventDates (futureBookings : list Booking.t)
    (listingAvailabilities : list ListingAvailability.t)
    (newBooking : option Booking.t) : list date :=
  flat_map (fun b => [Booking.startDate b; Booking.endDate b]) futureBookings
  ++ flat_map (fun la => [ListingAvailability.startDate la;
                          ListingAvailability.endDate la])
       listingAvailabilities
  ++ from_option (fun b => [Booking.startDate b; Booking.endDate b]) []
       newBooking.

(** The reading of the admission rule that looks at the timeline from the
    candidate's start only: some entry dated at or after [start] exceeds
    [m]. *)
Definition breachFrom (start : date) (m : Z) (tl : list Period.t) : bool :=
  existsb (fun p => String.leb start (Period.date p) && (Period.quantity p >? m))
    tl.

(** * Vocabulary of date mode *)

(** The quantity that the existing reservations dated [d] add up to. *)
Definition bookedOn (d : date) (futureBookings : list Booking.t) : Z :=
  foldr (fun b acc =>
    (if String.eqb (Booking.startDate b) d then Booking.quantity b else 0)
    + acc) 0 futureBookings.

(** Whether the candidate, if any, is dated [d]. *)
Definition candidateOn (d : date) (newBooking : option Booking.t) : bool :=
  match newBooking with
  | Some nb => String.eqb (Booking.startDate nb) d
  | None => false
  end.

(** The bucket that the date [d] must have: the sum of the reservations of
    that date, plus the candidate's quantity when its date is [d], flagged
    [selected] in that case. *)
Definition bucketOf (futureBookings : list Booking.t)
    (newBooking : option Booking.t) (d : date) : DateStep.t :=
  DateStep.mk d
    (bookedOn d futureBookings
     + match newBooking with
       | Some nb =>
           if String.eqb (Booking.startDate nb) d then Booking.quantity nb
           else 0
       | None => 0
       end)
    (candidateOn d newBooking).

(** The dates that have a bucket. *)
Definition bucketDates (futureBookings : list Booking.t)
    (newBooking : option Booking.t) : list date :=
  (Booking.startDate <$> futureBookings)
  ++ from_option (fun nb => [Booking.startDate nb]) [] newBooking.

(** Two declarations that differ at most in their [available] field. *)
Definition sameButAvailable (a b : ListingAvailability.t) : Prop :=
  ListingAvailability.startDate a = ListingAvailability.startDate b
  /\ ListingAvailability.endDate a = ListingAvailability.endDate b
  /\ ListingAvailability.quantity a = ListingAvailability.quantity b.

(** * A sample instance of the date arithmetic

    [utcSubtractDay] is what
    [d => moment(d).subtract({ d: 1 }).toISOString()] computes, in a process
    whose time zone is UTC, on a well-formed string
    [YYYY-MM-DDThh:mm:ss.sssZ] later than the first day of year 1: the same
    time of day on the previous day of the Gregorian calendar.  Any other
    string is returned unchanged.  It instantiates the parameter
    [subtractDay] in the examples. *)
Module UtcDay.
Definition digit (c : ascii) : option Z :=
  let n := Z.of_N (N_of_ascii c) in
  if (48 <=? n) && (n <=? 57) then Some (n - 48) else None.

Fixpoint number (acc : Z) (s : string) : option Z :=
  match s with
  | EmptyString => Some acc
  | String c s' =>
      match digit c with
      | Some d => number (10 * acc + d) s'
      | None => None
      end
  end.

Definition digitChar (n : Z) : ascii := ascii_of_N (Z.to_N (48 + n mod 10)).

Definition pad2 (n : Z) : string :=
  String (digitChar (n / 10)) (String (digitChar n) EmptyString).

Definition pad4 (n : Z) : string :=
  String (digitChar (n / 1000)) (String (digitChar (n / 100)) (pad2 n)).

Definition isLeap (y : Z) : bool :=
  (y mod 4 =? 0) && (negb (y mod 100 =? 0) || (y mod 400 =? 0)).

Definition daysInMonth (y m : Z) : Z :=
  if m =? 2 then (if isLeap y then 29 else 28)
  else if (m =? 4) || (m =? 6) || (m =? 9) || (m =? 11) then 30
  else 31.

Definition previousDay (y m d : Z) : Z * Z * Z :=
  if 1 <? d then (y, m, d - 1)
  else if 1 <? m then (y, m - 1, daysInMonth y (m - 1))
  else (y - 1, 12, 31).

Definition utcSubtractDay (s : string) : string :=
  match number 0 (substring 0 4 s), number 0 (substring 5 2 s),
        number 0 (substring 8 2 s) with
  | Some y, Some m, Some d =>
      if (String.length s =? 24)%nat && ((1 <? y) || (1 <? m) || (1 <? d)) then
        let '(y', m', d') := previousDay y m d in
        (pad4 y' ++ "-" ++ pad2 m' ++ "-" ++ pad2 d'
         ++ substring 10 14 s)%string
      else s
  | _, _, _ => s
  end.
End UtcDay.

(** * Sample calls *)
Module Sample.
Definition jan01 : date := "2024-01-01T00:00:00.000Z".
Definition jan02 : date := "2024-01-02T00:00:00.000Z".
Definition jan03 : date := "2024-01-03T00:00:00.000Z".
Definition jan05 : date := "2024-01-05T00:00:00.000Z".
Definition jan08 : date := "2024-01-08T00:00:00.000Z".
Definition jan10 : date := "2024-01-10T00:00:00.000Z".
Definition jan11 : date := "2024-01-11T00:00:00.000Z".
Definition feb09 : date := "2024-02-09T00:00:00.000Z".
Definition feb10 : date := "2024-02-10T00:00:00.000Z".

(** An old reservation of 5 units, over before the candidate starts. *)
Definition pastBooking : Booking.t := Booking.mk jan01 jan02 5.
Definition lateCandidate : Booking.t := Booking.mk jan10 jan11 1.

(** A reservation of one unit, and a candidate that ends at the instant
    the reservation starts. *)
Definition booked : Booking.t := Booking.mk jan05 jan08 1.
Definition candidateBefore : Booking.t := Booking.mk jan02 jan05 1.

(** A reservation and a candidate that start at the same instant. *)
Definition running : Booking.t := Booking.mk jan02 jan05 1.
Definition candidateSameStart : Booking.t := Booking.mk jan02 jan03 1.

(** An owner declaration that frees one unit from January 2 to 5. *)
Definition opening : ListingAvailability.t :=
  ListingAvailability.mk jan02 jan05 true 1.
End Sample.

Module SampleDates.
(** In date mode the reservations carry no end date: the field is left
    empty, and is never read. *)
Definition onFeb10 (q : Z) : Booking.t := Booking.mk Sample.feb10 "" q.
Definition onFeb09 (q : Z) : Booking.t := Booking.mk Sample.feb09 "" q.

(** Owner declarations for February 10, of quantity 1. *)
Definition declared : ListingAvailability.t :=
  ListingAvailability.mk Sample.feb10 "" true 1.
Definition declaredClosed : ListingAvailability.t :=
  ListingAvailability.mk Sample.feb10 "" false 1.
End SampleDates.

(** * Booking creation: [checkBasic] and [setBookingAvailability] *)

(** What a function throws: [createError(status, message)] of the
    http-errors package, [new Error(message)], or the [TypeError] of a
    property read on [undefined]. *)
Inductive Thrown :=
  | HttpError (status : Z) (message : string)
  | PlainError (message : string)
  | TypeError.

Inductive Outcome (A : Type) :=
  | Returned (a : A)
  | Threw (e : Thrown).
Arguments Returned {A} a.
Arguments Threw {A} e.

(** The fields of a listing that [checkBasic] reads. *)
Module Listing.
Record t := mk
  { ownerId : Z;
    listingTypesIds : list Z;
    quantity : Z;
    validated : bool }.
End Listing.

(** [_.includes(array, value)] on numbers. *)
Definition includes (l : list Z) (v : Z) : bool := existsb (Z.eqb v) l.

(** Lines 120-145.  [userId] is [user.id]; [listingTypeId] is [None] when it
    is [undefined], and is falsy when it is 0 as well.  [Listing.isBookable]
    belongs to the Listing model, outside the file: a parameter. *)
Definition checkBasic (isBookable : Listing.t -> bool) (listing : Listing.t)
    (userId : Z) (listingTypeId : option Z) : Outcome unit :=
  if Listing.ownerId listing =? userId then
    Threw (HttpError 403 "Owner cannot book its own listing")
  else if (length (Listing.listingTypesIds listing) =? 0)%nat then
    Threw (PlainError "Listing has no listing types")
  else if match listingTypeId with
          | Some ty =>
              (ty =? 0) || negb (includes (Listing.listingTypesIds listing) ty)
          | None => true
          end then
    Threw (PlainError "Incorrect listing type")
  else if Listing.quantity listing =? 0 then
    Threw (PlainError "Not enough quantity")
  else if negb (Listing.validated listing) then
    Threw (HttpError 400 "Not validated")
  else if negb (isBookable listing) then
    Threw (HttpError 400 "Listing not bookable")
  else Returned tt.

(** The fields of a listing type that [setBookingAvailability] reads:
    [properties.TIME], [properties.AVAILABILITY] and
    [config.timeAvailability]. *)
Module ListingType.
Record t := mk
  { TIME : string; AVAILABILITY : string; timeAvailability : string }.
End ListingType.

(** [maxQuantity < quantity] in JavaScript: false when [maxQuantity] is
    [undefined]. *)
Definition lessThan (maxQuantity : option Z) (quantity : Z) : bool :=
  match maxQuantity with
  | Some m => m <? quantity
  | None => false
  end.

Section BookingCreation.
Variable subtractDay : date -> date.

(** Lines 244-324.  The values that the function awaits from the models are
    arguments: [maxQuantity] is [Listing.getMaxQuantity(listing,
    listingType)], [futureBookings] is [Listing.getFutureBookings(listing.id,
    now)], [periodAvailabilities] and [dateAvailabilities] are the results of
    [ListingAvailability.find] for the types ['period'] and ['date'].  The
    function only writes [bookingAttrs.quantity]: the model returns the
    value written. *)
Definition setBookingAvailability (listingType : ListingType.t)
    (maxQuantity : option Z) (futureBookings : list Booking.t)
    (periodAvailabilities dateAvailabilities : list ListingAvailability.t)
    (startDate endDate : date) (quantity : Z) : Outcome Z :=
  let TIME := ListingType.TIME listingType in
  let AVAILABILITY := ListingType.AVAILABILITY listingType in
  let timeAvailability := ListingType.timeAvailability listingType in
  if String.eqb AVAILABILITY "NONE" then Returned 1
  else if String.eqb AVAILABILITY "UNIQUE" then
    if lessThan maxQuantity quantity then
      Threw (HttpError 400 "Do not have enough quantity")
    else Returned 1
  else if String.eqb TIME "TIME_FLEXIBLE" then
    if lessThan maxQuantity quantity then
      Threw (HttpError 400 "Do not have enough quantity")
    else
      let listingAvailabilities :=
        if String.eqb timeAvailability "AVAILABLE"
           || String.eqb timeAvailability "UNAVAILABLE"
        then periodAvailabilities else [] in
      let availability :=
        getAvailabilityPeriods subtractDay futureBookings
          listingAvailabilities
          (Some (Booking.mk startDate endDate quantity)) maxQuantity in
      if negb (PeriodsResult.isAvailable availability) then
        Threw (HttpError 400 "Not available")
      else Returned quantity
  else if String.eqb TIME "TIME_PREDEFINED" then
    match getAvailabilityDates futureBookings dateAvailabilities
            (Some (Booking.mk startDate "" quantity)) maxQuantity with
    | Some availability =>
        if negb (DatesResult.isAvailable availability) then
          Threw (HttpError 400 "Not available")
        else Returned quantity
    | None => Threw TypeError
    end
  else Returned quantity.
End BookingCreation.

(** * More vocabulary *)

(** The declarations that range mode takes into account for a listing
    type. *)
Definition periodDeclarations (listingType : ListingType.t)
    (periodAvailabilities : list ListingAvailability.t)
    : list ListingAvailability.t :=
  if String.eqb (ListingType.timeAvailability listingType) "AVAILABLE"
     || String.eqb (ListingType.timeAvailability listingType) "UNAVAILABLE"
  then periodAvailabilities else [].

(** Whether the availability mode of a listing type manages a stock. *)
Definition hasStock (listingType : ListingType.t) : Prop :=
  ListingType.AVAILABILITY listingType <> "NONE"
  /\ ListingType.AVAILABILITY listingType <> "UNIQUE".

(** The sum of the quantities of a list of reservations and of a list of
    buckets. *)
Definition sumBookings (l : list Booking.t) : Z :=
  foldr (fun b acc => Booking.quantity b + acc) 0 l.

Definition sumBuckets (l : list DateStep.t) : Z :=
  foldr (fun d acc => DateStep.quantity d + acc) 0 l.

(** The tag that the entry dated [d] shows. *)
Definition tagAt (fb : list Booking.t) (las : list ListingAvailability.t)
    (nb : option Booking.t) (d : date) : option NewPeriod :=
  if bool_decide (d ∈ eventDates fb las None) then None
  else match nb with
       | Some b =>
           if String.eqb (Booking.startDate b) d then Some PeriodStart
           else if String.eqb (Booking.endDate b) d then Some PeriodEnd
           else None
       | None => None
       end.

(** The entry dated [d]: the net quantity of the events dated at or before
    [d], with the tag of that date. *)
Definition entryAt (fb : list Booking.t) (las : list ListingAvailability.t)
    (nb : option Booking.t) (d : date) : Period.t :=
  Period.mk d (sumDeltas (upTo d (dateSteps fb las nb))) (tagAt fb las nb d).

Module SampleTypes.
(** A listing type booked by ranges and one booked by predefined dates, both
    with a managed stock. *)
Definition flexible : ListingType.t :=
  ListingType.mk "TIME_FLEXIBLE" "STOCK" "AVAILABLE".
Definition predefined : ListingType.t :=
  ListingType.mk "TIME_PREDEFINED" "STOCK" "NONE".
Definition unique : ListingType.t :=
  ListingType.mk "TIME_FLEXIBLE" "UNIQUE" "NONE".

(** A validated listing of owner 7, of listing types 1 and 2. *)
Definition listing : Listing.t := Listing.mk 7 [1; 2] 3 true.
End SampleTypes.

(** A well-formed interval: a non-negative quantity over a range whose end
    does not precede its start. *)
Definition wellFormed (b : Booking.t) : Prop :=
  0 <= Booking.quantity b
  /\ date_le (Booking.startDate b) (Booking.endDate b).

(** A well-formed declaration that closes capacity ([available = false]). *)
Definition closing (la : ListingAvailability.t) : Prop :=
  ListingAvailability.available la = false
  /\ 0 <= ListingAvailability.quantity la
  /\ date_le (ListingAvailability.startDate la)
       (ListingAvailability.endDate la).

(** * Properties *)

(** ** The order on dates *)

Lemma string_compare_OT (a b : string) :
  String.compare a b = OrdersEx.String_as_OT.compare a b.
Proof. reflexivity. Qed.

Lemma string_compare_refl (a : string) : String.compare a a = Eq.
Proof.
  induction a as [|c a IH]; simpl; [reflexivity|].
  unfold Ascii.compare. now rewrite N.compare_refl.
Qed.

Lemma string_compare_lt_trans (a b c : string) :
  String.compare a b = Lt -> String.compare b c = Lt -> String.compare a c = Lt.
Proof.
  rewrite !string_compare_OT.
  apply (@StrictOrder_Transitive _ _ OrdersEx.String_as_OT.lt_strorder).
Qed.

Lemma date_lt_irrefl (a : date) : ~ date_lt a a.
Proof. unfold date_lt, String.ltb. now rewrite string_compare_refl. Qed.

Lemma date_le_refl (a : date) : date_le a a.
Proof. unfold date_le, String.leb. now rewrite string_compare_refl. Qed.

Lemma date_lt_le (a b : date) : date_lt a b -> date_le a b.
Proof.
  unfold date_lt, date_le, String.ltb, String.leb.
  now destruct (String.compare a b).
Qed.

Lemma date_le_lt_or_eq (a b : date) : date_le a b <-> date_lt a b \/ a = b.
Proof.
  unfold date_lt, date_le, String.ltb, String.leb. split.
  - destruct (String.compare a b) eqn:E; try discriminate; auto.
    right. now apply String.compare_eq_iff.
  - intros [H| ->]; [now destruct (String.compare a b)|].
    now rewrite string_compare_refl.
Qed.

Lemma date_lt_trans (a b c : date) : date_lt a b -> date_lt b c -> date_lt a c.
Proof.
  unfold date_lt, String.ltb. intros H1 H2.
  destruct (String.compare a b) eqn:E1; try discriminate.
  destruct (String.compare b c) eqn:E2; try discriminate.
  now rewrite (string_compare_lt_trans _ _ _ E1 E2).
Qed.

Lemma date_le_trans (a b c : date) : date_le a b -> date_le b c -> date_le a c.
Proof.
  rewrite !date_le_lt_or_eq.
  intros [H1| ->] [H2| ->]; eauto using date_lt_trans.
Qed.

Lemma date_le_lt_trans (a b c : date) :
  date_le a b -> date_lt b c -> date_lt a c.
Proof.
  rewrite date_le_lt_or_eq. intros [H1| ->] H2; eauto using date_lt_trans.
Qed.

Lemma date_lt_le_trans (a b c : date) :
  date_lt a b -> date_le b c -> date_lt a c.
Proof.
  rewrite date_le_lt_or_eq. intros H1 [H2| <-]; eauto using date_lt_trans.
Qed.

Lemma date_leb_false (a b : date) : String.leb a b = false -> date_lt b a.
Proof.
  unfold date_lt, String.ltb, String.leb.
  rewrite (String.compare_antisym b a).
  now destruct (String.compare a b).
Qed.

Lemma date_lt_not_le (a b : date) : date_lt a b -> ~ date_le b a.
Proof.
  intros H1 H2. apply (date_lt_irrefl a). eauto using date_lt_le_trans.
Qed.

Lemma date_leb_total (a b : date) : date_le a b \/ date_lt b a.
Proof.
  unfold date_le. destruct (String.leb a b) eqn:E; auto using date_leb_false.
Qed.

#[local] Instance date_le_trans_inst : Transitive date_le := date_le_trans.
#[local] Instance date_lt_trans_inst : Transitive date_lt := date_lt_trans.

(** ** [_.sortBy] is the stable sort *)

Section SortByFacts.
Context {A : Type} (f : A -> string).

#[local] Instance le_by_trans : Transitive (le_by f).
Proof. intros x y z. apply date_le_trans. Qed.

#[local] Instance lt_by_trans : Transitive (lt_by f).
Proof. intros x y z. apply date_lt_trans. Qed.

Lemma insertBy_perm (x : A) (l : list A) : insertBy f x l ≡ₚ x :: l.
Proof.
  induction l as [|y l IH]; simpl; [done|].
  destruct (String.leb (f x) (f y)); [done|].
  rewrite IH. apply Permutation_swap.
Qed.

Lemma sortBy_perm (l : list A) : sortBy f l ≡ₚ l.
Proof.
  induction l as [|x l IH]; simpl; [done|].
  unfold sortBy in *. simpl. now rewrite insertBy_perm, IH.
Qed.

Lemma insertBy_sorted (x : A) (l : list A) :
  StronglySorted (le_by f) l -> StronglySorted (le_by f) (insertBy f x l).
Proof.
  induction l as [|y l IH]; simpl; intros Hs.
  - repeat constructor.
  - destruct (String.leb (f x) (f y)) eqn:E.
    + constructor; [done|]. apply StronglySorted_cons in Hs as [Hy _].
      constructor; [exact E|].
      eapply Forall_impl; [exact Hy|]. intros z Hz.
      unfold le_by in *. eapply date_le_trans; [exact E|exact Hz].
    + apply StronglySorted_cons in Hs as [Hy Hs].
      constructor; [auto|].
      rewrite insertBy_perm. constructor; [|done].
      apply date_lt_le, date_leb_false, E.
Qed.

Lemma sortBy_sorted (l : list A) : StronglySorted (le_by f) (sortBy f l).
Proof.
  induction l as [|x l IH]; [constructor|].
  now apply insertBy_sorted.
Qed.

(** Stability: the elements of one criterion keep their input order. *)
Lemma insertBy_stable (k : string) (x : A) (l : list A) :
  StronglySorted (le_by f) l ->
  List.filter (fun y => String.eqb (f y) k) (insertBy f x l)
  = List.filter (fun y => String.eqb (f y) k) (x :: l).
Proof.
  induction l as [|y l IH]; intros Hs; [done|].
  cbn [insertBy]. destruct (String.leb (f x) (f y)) eqn:E; [done|].
  apply StronglySorted_cons in Hs as [Hy Hs].
  cbn [List.filter]. rewrite IH by done. cbn [List.filter].
  destruct (String.eqb (f x) k) eqn:Ex, (String.eqb (f y) k) eqn:Ey;
    try reflexivity.
  apply String.eqb_eq in Ex, Ey. subst k.
  rewrite Ey in E. unfold String.leb in E.
  now rewrite string_compare_refl in E.
Qed.

Lemma sortBy_stable (k : string) (l : list A) :
  List.filter (fun y => String.eqb (f y) k) (sortBy f l)
  = List.filter (fun y => String.eqb (f y) k) l.
Proof.
  induction l as [|x l IH]; [done|].
  change (sortBy f (x :: l)) with (insertBy f x (sortBy f l)).
  rewrite insertBy_stable by apply sortBy_sorted.
  cbn [List.filter]. now rewrite IH.
Qed.

Lemma sorted_le_lt (l : list A) :
  StronglySorted (le_by f) l -> NoDup (f <$> l) -> StronglySorted (lt_by f) l.
Proof.
  induction 1 as [|x l Hs IH Hx]; intros Hnd; [constructor|].
  rewrite fmap_cons in Hnd. apply NoDup_cons in Hnd as [Hx' Hnd].
  constructor; [auto|].
  rewrite Forall_forall in Hx |- *. intros y Hy.
  destruct (proj1 (date_le_lt_or_eq _ _) (Hx y Hy)) as [H|H]; [done|].
  exfalso. apply Hx'. rewrite H. now apply list_elem_of_fmap_2.
Qed.

(** With pairwise distinct criteria the result does not depend on the
    order of the input. *)
Lemma sortBy_any_order (l1 l2 : list A) :
  l1 ≡ₚ l2 -> NoDup (f <$> l1) -> sortBy f l1 = sortBy f l2.
Proof.
  intros Hp Hnd.
  apply (StronglySorted_unique_strong (lt_by f)).
  - intros x y _ _ H1 H2. exfalso.
    apply (date_lt_irrefl (f x)). eapply date_lt_trans; eauto.
  - apply sorted_le_lt; [apply sortBy_sorted|].
    now rewrite sortBy_perm.
  - apply sorted_le_lt; [apply sortBy_sorted|].
    now rewrite sortBy_perm, <- Hp.
  - now rewrite !sortBy_perm.
Qed.
End SortByFacts.

(** ** The steps of a call *)

Lemma dateSteps_flat (fb : list Booking.t) (las : list ListingAvailability.t)
    (nb : option Booking.t) :
  dateSteps fb las nb
  = flat_map bookingSteps fb ++ flat_map availabilitySteps las
    ++ from_option newBookingSteps [] nb.
Proof.
  unfold dateSteps, push.
  assert (Hb : forall l acc,
    fold_left (fun acc booking =>
      (acc ++ [Step.mk (Booking.startDate booking)
                 (Booking.quantity booking) None])
      ++ [Step.mk (Booking.endDate booking)
            (- Booking.quantity booking) None]) l acc
    = acc ++ flat_map bookingSteps l).
  { induction l as [|b l IH]; intros acc; simpl.
    - now rewrite app_nil_r.
    - rewrite IH. now rewrite <- !app_assoc. }
  assert (Ha : forall l acc,
    fold_left (fun acc la =>
      (acc ++ [Step.mk (ListingAvailability.startDate la)
                 ((if ListingAvailability.available la then -1 else 1)
                  * ListingAvailability.quantity la) None])
      ++ [Step.mk (ListingAvailability.endDate la)
            (-1 * (if ListingAvailability.available la then -1 else 1)
             * ListingAvailability.quantity la) None]) l acc
    = acc ++ flat_map availabilitySteps l).
  { induction l as [|a l IH]; intros acc; simpl.
    - now rewrite app_nil_r.
    - rewrite IH. now rewrite <- !app_assoc. }
  cbv zeta. rewrite Hb, Ha. simpl.
  destruct nb as [nb|]; simpl.
  - now rewrite <- !app_assoc.
  - now rewrite app_nil_r.
Qed.

(** ** Sums and running totals *)

Lemma sumDeltas_app (l1 l2 : list Step.t) :
  sumDeltas (l1 ++ l2) = sumDeltas l1 + sumDeltas l2.
Proof.
  induction l1 as [|s l1 IH]; simpl; [reflexivity|].
  unfold sumDeltas in *. simpl. rewrite IH. lia.
Qed.

Lemma sumDeltas_snoc (l : list Step.t) (x : Step.t) :
  sumDeltas (l ++ [x]) = sumDeltas l + Step.delta x.
Proof. rewrite sumDeltas_app. unfold sumDeltas. simpl. lia. Qed.

Lemma sumDeltas_perm (l1 l2 : list Step.t) :
  l1 ≡ₚ l2 -> sumDeltas l1 = sumDeltas l2.
Proof.
  induction 1 as [| x l l' _ IH | x y l | l l' l'' _ IH1 _ IH2];
    unfold sumDeltas in *; simpl; try lia.
Qed.

Lemma upTo_app (t : date) (l1 l2 : list Step.t) :
  upTo t (l1 ++ l2) = upTo t l1 ++ upTo t l2.
Proof. apply List.filter_app. Qed.

Lemma upTo_perm (t : date) (l1 l2 : list Step.t) :
  l1 ≡ₚ l2 -> upTo t l1 ≡ₚ upTo t l2.
Proof.
  unfold upTo.
  induction 1 as [| x l l' _ IH | x y l | l l' l'' _ IH1 _ IH2]; simpl.
  - done.
  - destruct (String.leb (Step.date x) t); [now constructor|done].
  - destruct (String.leb (Step.date x) t), (String.leb (Step.date y) t);
      try done. apply Permutation_swap.
  - now rewrite IH1.
Qed.

Lemma upTo_all (t : date) (l : list Step.t) :
  (forall y, y ∈ l -> date_le (Step.date y) t) -> upTo t l = l.
Proof.
  induction l as [|s l IH]; intros H; [reflexivity|].
  unfold upTo in *. simpl.
  rewrite (H s) by left. f_equal. apply IH. intros y Hy. apply H. now right.
Qed.

Lemma runningTotals_app (q : Z) (l1 l2 : list Step.t) :
  runningTotals q (l1 ++ l2)
  = runningTotals q l1 ++ runningTotals (q + sumDeltas l1) l2.
Proof.
  revert q. induction l1 as [|s l1 IH]; intros q; simpl.
  - f_equal. unfold sumDeltas. simpl. lia.
  - rewrite IH. do 3 f_equal. unfold sumDeltas. simpl. lia.
Qed.

Lemma runningTotals_snoc (l : list Step.t) (x : Step.t) :
  runningTotals 0 (l ++ [x])
  = runningTotals 0 l ++ [sumDeltas l + Step.delta x].
Proof. rewrite runningTotals_app. reflexivity. Qed.

Lemma quantityAt_snoc (tl : list Period.t) (p : Period.t) (t : date) :
  quantityAt (tl ++ [p]) t
  = if String.leb (Period.date p) t then Period.quantity p
    else quantityAt tl t.
Proof. unfold quantityAt. now rewrite fold_left_app. Qed.

(** ** One iteration of the sweep, by the shape of the state *)

Lemma sweepStep_first (nb : option Booking.t) (mq : option Z)
    (q : Z) (ok : bool) (x : Step.t) :
  sweepStep nb mq (Sweep.mk [] q None ok) x
  = Sweep.mk [entryOf (q + Step.delta x) x] (q + Step.delta x) (Some 0%nat)
      (latch nb mq ok (q + Step.delta x)).
Proof.
  unfold sweepStep, entryOf, latch, push. simpl.
  now destruct (Step.newPeriod x).
Qed.

Lemma sweepStep_next (nb : option Booking.t) (mq : option Z)
    (init : list Period.t) (last : Period.t) (q : Z) (ok : bool) (x : Step.t) :
  sweepStep nb mq (Sweep.mk (init ++ [last]) q (Some (length init)) ok) x
  = if String.eqb (Step.date x) (Period.date last)
    then Sweep.mk (init ++ [Period.setQuantity (q + Step.delta x) last])
           (q + Step.delta x) (Some (length init))
           (latch nb mq ok (q + Step.delta x))
    else Sweep.mk ((init ++ [last]) ++ [entryOf (q + Step.delta x) x])
           (q + Step.delta x) (Some (length (init ++ [last])))
           (latch nb mq ok (q + Step.delta x)).
Proof.
  unfold sweepStep, entryOf, latch, push. cbn [Sweep.oldStep Sweep.availablePeriods
    Sweep.quantity Sweep.isAvailable Period.quantity].
  rewrite list_lookup_middle by reflexivity.
  replace (alter (Period.setQuantity (q + Step.delta x)) (length init)
             (init ++ [last]))
    with (init ++ [Period.setQuantity (q + Step.delta x) last]).
  2:{ rewrite <- (Nat.add_0_r (length init)) at 1.
      now rewrite (alter_app_r _ init [last] 0). }
  now destruct (Step.newPeriod x).
Qed.

(** ** The invariant of the sweep *)

Lemma SweepInv_init (nb : option Booking.t) (mq : option Z) :
  SweepInv nb mq [] Sweep.init.
Proof.
  split; simpl; try done.
  - left. done.
  - constructor.
  - now rewrite andb_false_r.
  - intros p Hp. now apply elem_of_nil in Hp.
Qed.

Lemma latch_snoc (nb : option Booking.t) (mq : option Z) (l : list Step.t)
    (x : Step.t) :
  latch nb mq
    (negb (bool_decide (is_Some nb)
           && existsb (fun q => exceeds q mq) (runningTotals 0 l)))
    (sumDeltas l + Step.delta x)
  = negb (bool_decide (is_Some nb)
          && existsb (fun q => exceeds q mq) (runningTotals 0 (l ++ [x]))).
Proof.
  rewrite runningTotals_snoc, existsb_app. simpl. unfold latch.
  destruct (bool_decide (is_Some nb)),
    (existsb (fun q => exceeds q mq) (runningTotals 0 l)),
    (exceeds (sumDeltas l + Step.delta x) mq); reflexivity.
Qed.

Lemma SweepInv_step (nb : option Booking.t) (mq : option Z)
    (l : list Step.t) (st : Sweep.t) (x : Step.t) :
  SweepInv nb mq l st ->
  (forall y, y ∈ l -> date_le (Step.date y) (Step.date x)) ->
  SweepInv nb mq (l ++ [x]) (sweepStep nb mq st x).
Proof.
  intros [Hq Hshape Hsorted Hdates Hat Hlatch Hhead Htot Hdist Htag] Hle.
  destruct st as [aps q old ok]. simpl in *. subst q ok.
  assert (Hat' : forall t aps',
    (date_le (Step.date x) t ->
       quantityAt aps' t = sumDeltas l + Step.delta x) ->
    (~ date_le (Step.date x) t -> quantityAt aps' t = quantityAt aps t) ->
    quantityAt aps' t = sumDeltas (upTo t (l ++ [x]))).
  { intros t aps' H1 H2. rewrite upTo_app, sumDeltas_app.
    unfold upTo at 2. simpl.
    destruct (String.leb (Step.date x) t) eqn:E.
    - rewrite H1 by exact E. rewrite upTo_all; [unfold sumDeltas; simpl; lia|].
      intros y Hy. eapply date_le_trans; [apply Hle, Hy|exact E].
    - rewrite H2, Hat; [unfold sumDeltas; simpl; lia|].
      unfold date_le. now rewrite E. }
  assert (Htag' : forall p, p ∈ aps ->
    exists l1 s l2,
      l ++ [x] = l1 ++ s :: l2
      /\ Step.date s = Period.date p
      /\ Step.newPeriod s = Period.newPeriod p
      /\ Forall (fun y => Step.date y <> Period.date p) l1).
  { intros p Hp. destruct (Htag p Hp) as (l1 & s & l2 & -> & H1 & H2 & H3).
    exists l1, s, (l2 ++ [x]). now rewrite <- app_assoc. }
  destruct Hshape as [(-> & -> & ->)|(l0 & x0 & init & last & -> & -> & -> & Hd & Hql)].
  - (* the first step *)
    rewrite sweepStep_first. split; cbn [Sweep.quantity Sweep.availablePeriods
      Sweep.oldStep Sweep.isAvailable app].
    + unfold sumDeltas. simpl. lia.
    + right. exists [], x, [], (entryOf (0 + Step.delta x) x). done.
    + repeat constructor.
    + intros d. simpl. done.
    + intros t. apply Hat'; unfold quantityAt, date_le; simpl.
      * intros ->. unfold sumDeltas. simpl. lia.
      * now destruct (String.leb (Step.date x) t).
    + apply (latch_snoc nb mq [] x).
    + done.
    + repeat constructor.
    + done.
    + intros p Hp. apply list_elem_of_singleton in Hp as ->.
      exists [], x, []. done.
  - (* a later step *)
    rewrite sweepStep_next. rewrite Hd.
    destruct (String.eqb (Step.date x) (Step.date x0)) eqn:E.
    + (* same date as the last entry: its quantity is overwritten *)
      apply String.eqb_eq in E.
      assert (Hmap : Period.date <$>
                (init ++ [Period.setQuantity (sumDeltas (l0 ++ [x0])
                                              + Step.delta x) last])
              = Period.date <$> (init ++ [last])).
      { now rewrite !fmap_app. }
      split; cbn [Sweep.quantity Sweep.availablePeriods
        Sweep.oldStep Sweep.isAvailable].
      * symmetry. apply sumDeltas_snoc.
      * right. exists (l0 ++ [x0]), x, init,
          (Period.setQuantity (sumDeltas (l0 ++ [x0]) + Step.delta x) last).
        simpl. rewrite Hd, E. done.
      * now rewrite Hmap.
      * intros d. rewrite Hmap, Hdates, !fmap_app, !elem_of_app. simpl.
        rewrite E, !list_elem_of_singleton. tauto.
      * intros t. apply Hat'; rewrite !quantityAt_snoc; simpl; rewrite Hd, <- E.
        -- unfold date_le. now intros ->.
        -- unfold date_le. now destruct (String.leb (Step.date x) t).
      * apply latch_snoc.
      * rewrite Hmap, Hhead. now destruct l0.
      * rewrite runningTotals_snoc. apply Forall_app. split.
        -- apply Forall_app in Htot as [Htot _].
           eapply Forall_impl; [exact Htot|]. intros p Hp.
           apply elem_of_app. now left.
        -- repeat constructor. simpl. apply elem_of_app. right. left.
      * intros Hnd. exfalso. rewrite !fmap_app in Hnd. simpl in Hnd.
        rewrite E in Hnd. rewrite <- app_assoc in Hnd.
        apply NoDup_app in Hnd as (_ & _ & Hnd). simpl in Hnd.
        apply NoDup_cons in Hnd as [Hnd _]. apply Hnd. left.
      * intros p Hp. apply elem_of_app in Hp as [Hp|Hp].
        -- apply Htag', elem_of_app. now left.
        -- apply list_elem_of_singleton in Hp as ->.
           apply (Htag' last), elem_of_app. right. left.
    + (* a new date: a new entry is pushed *)
      apply String.eqb_neq in E.
      assert (Hlt : date_lt (Step.date x0) (Step.date x)).
      { destruct (proj1 (date_le_lt_or_eq _ _)
                    (Hle x0 ltac:(apply elem_of_app; right; left))); congruence. }
      split; cbn [Sweep.quantity Sweep.availablePeriods
        Sweep.oldStep Sweep.isAvailable].
      * symmetry. apply sumDeltas_snoc.
      * right. exists (l0 ++ [x0]), x, (init ++ [last]),
          (entryOf (sumDeltas (l0 ++ [x0]) + Step.delta x) x). done.
      * rewrite fmap_app. apply StronglySorted_app_2; [|done|repeat constructor].
        intros d1 d2 Hd1 Hd2. simpl in Hd2.
        apply list_elem_of_singleton in Hd2 as ->.
        rewrite fmap_app in Hsorted, Hd1. simpl in Hd1.
        apply elem_of_app in Hd1 as [Hd1|Hd1].
        -- eapply date_lt_trans; [|exact Hlt]. rewrite <- Hd.
           apply (StronglySorted_app_1_elem_of _ _ _ _ _ Hsorted Hd1). left.
        -- apply list_elem_of_singleton in Hd1 as ->. now rewrite Hd.
      * intros d. rewrite (fmap_app _ (init ++ [last])), (fmap_app _ (l0 ++ [x0])).
        rewrite (elem_of_app _ _ d), Hdates, (elem_of_app (Step.date <$> l0 ++ [x0])).
        simpl. done.
      * intros t. apply Hat'; rewrite quantityAt_snoc; simpl.
        -- unfold date_le. now intros ->.
        -- unfold date_le. now destruct (String.leb (Step.date x) t).
      * apply latch_snoc.
      * rewrite fmap_app, (fmap_app _ (l0 ++ [x0])).
        rewrite fmap_app in Hhead. rewrite !fmap_app.
        rewrite fmap_app in Hhead.
        destruct (Period.date <$> init), (Step.date <$> l0); simpl in *; done.
      * rewrite runningTotals_snoc. apply Forall_app. split.
        -- eapply Forall_impl; [exact Htot|]. intros p Hp.
           apply elem_of_app. now left.
        -- repeat constructor. simpl. apply elem_of_app. right. left.
      * intros Hnd. rewrite fmap_app, runningTotals_snoc. simpl.
        rewrite Hdist; [done|].
        rewrite fmap_app in Hnd. now apply NoDup_app in Hnd as (Hnd & _).
      * intros p Hp. apply elem_of_app in Hp as [Hp|Hp]; [now apply Htag'|].
        apply list_elem_of_singleton in Hp as ->.
        exists (l0 ++ [x0]), x, []. repeat split.
        apply Forall_forall. intros y Hy Heq.
        assert (Hin : Step.date y ∈ Period.date <$> init ++ [last]).
        { apply Hdates. now apply list_elem_of_fmap_2. }
        rewrite fmap_app in Hin, Hsorted.
        apply (date_lt_irrefl (Step.date x)). rewrite <- Heq at 1.
        apply elem_of_app in Hin as [Hin|Hin].
        -- eapply date_lt_trans; [|exact Hlt]. rewrite <- Hd.
           apply (StronglySorted_app_1_elem_of _ _ _ _ _ Hsorted Hin). left.
        -- apply list_elem_of_singleton in Hin. simpl in Hin.
           rewrite Hin, Hd. exact Hlt.
Qed.

Lemma sweep_snoc (nb : option Booking.t) (mq : option Z) (l : list Step.t)
    (x : Step.t) :
  sweep nb mq (l ++ [x]) = sweepStep nb mq (sweep nb mq l) x.
Proof. unfold sweep. now rewrite fold_left_app. Qed.

Lemma sweep_inv (nb : option Booking.t) (mq : option Z) (l : list Step.t) :
  StronglySorted (le_by Step.date) l -> SweepInv nb mq l (sweep nb mq l).
Proof.
  induction l as [|x l IH] using rev_ind; intros Hs.
  - apply SweepInv_init.
  - rewrite sweep_snoc. apply StronglySorted_app in Hs as (Hle & Hs & _).
    apply SweepInv_step; [auto|].
    intros y Hy. apply (Hle y x Hy). left.
Qed.

Lemma sortedSteps_inv (fb : list Booking.t) (las : list ListingAvailability.t)
    (nb : option Booking.t) (mq : option Z) :
  SweepInv nb mq (sortedSteps fb las nb) (sweep nb mq (sortedSteps fb las nb)).
Proof. apply sweep_inv, sortBy_sorted. Qed.

Lemma sortedSteps_perm (fb : list Booking.t) (las : list ListingAvailability.t)
    (nb : option Booking.t) :
  sortedSteps fb las nb ≡ₚ dateSteps fb las nb.
Proof. apply sortBy_perm. Qed.

Lemma dateSteps_dates (fb : list Booking.t) (las : list ListingAvailability.t)
    (nb : option Booking.t) :
  Step.date <$> dateSteps fb las nb = eventDates fb las nb.
Proof.
  rewrite dateSteps_flat. unfold eventDates. rewrite !fmap_app.
  f_equal; [|f_equal].
  - induction fb as [|b fb IH]; simpl; [done|]. now f_equal; f_equal.
  - induction las as [|a las IH]; simpl; [done|]. now f_equal; f_equal.
  - now destruct nb.
Qed.

Lemma sortedSteps_dates (fb : list Booking.t)
    (las : list ListingAvailability.t) (nb : option Booking.t) :
  Step.date <$> sortedSteps fb las nb ≡ₚ eventDates fb las nb.
Proof. now rewrite sortedSteps_perm, dateSteps_dates. Qed.

(** ** The result of [getAvailabilityPeriods] *)

Section RangeModeFacts.
Variable subtractDay : date -> date.

Lemma getAvailabilityPeriods_eq (fb : list Booking.t)
    (las : list ListingAvailability.t) (nb : option Booking.t)
    (mq : option Z) :
  getAvailabilityPeriods subtractDay fb las nb mq
  = PeriodsResult.mk
      (Sweep.isAvailable (sweep nb mq (sortedSteps fb las nb)))
      (withAnchor subtractDay (timeline fb las nb mq)).
Proof. reflexivity. Qed.

(** The entries after the anchor are the timeline of the sweep. *)
Lemma tail_withAnchor (tl : list Period.t) :
  tail (withAnchor subtractDay tl) = tl.
Proof. now destruct tl. Qed.

(** The anchor does not change the step function of the timeline. *)
Lemma quantityAt_withAnchor (tl : list Period.t) (t : date) :
  quantityAt (withAnchor subtractDay tl) t = quantityAt tl t.
Proof.
  destruct tl as [|p tl]; [done|].
  unfold withAnchor, quantityAt.
  change (fold_left ?f (?a :: p :: tl) 0) with (fold_left f (p :: tl) (f 0 a)).
  cbn beta. simpl Period.quantity. now destruct (String.leb _ t).
Qed.
End RangeModeFacts.

(** Each timestamp's entry holds the total of all the deltas dated at or
    before it: the step function of the timeline is the sum of the deltas. *)
Lemma timeline_quantityAt (fb : list Booking.t)
    (las : list ListingAvailability.t) (nb : option Booking.t) (mq : option Z)
    (t : date) :
  quantityAt (timeline fb las nb mq) t = sumDeltas (upTo t (dateSteps fb las nb)).
Proof.
  unfold timeline. rewrite (inv_at _ _ _ _ (sortedSteps_inv fb las nb mq)).
  apply sumDeltas_perm, upTo_perm, sortedSteps_perm.
Qed.

Lemma timeline_sorted (fb : list Booking.t) (las : list ListingAvailability.t)
    (nb : option Booking.t) (mq : option Z) :
  StronglySorted date_lt (Period.date <$> timeline fb las nb mq).
Proof. apply (inv_sorted _ _ _ _ (sortedSteps_inv fb las nb mq)). Qed.

Lemma timeline_dates (fb : list Booking.t) (las : list ListingAvailability.t)
    (nb : option Booking.t) (mq : option Z) (d : date) :
  d ∈ (Period.date <$> timeline fb las nb mq) <-> d ∈ eventDates fb las nb.
Proof.
  unfold timeline. rewrite (inv_dates _ _ _ _ (sortedSteps_inv fb las nb mq)).
  now rewrite sortedSteps_dates.
Qed.

(** In a strictly sorted timeline the step function takes, at the date of an
    entry, the quantity of that entry. *)
Lemma quantityAt_entry (tl : list Period.t) (p : Period.t) :
  StronglySorted date_lt (Period.date <$> tl) -> p ∈ tl ->
  quantityAt tl (Period.date p) = Period.quantity p.
Proof.
  intros Hs Hp. apply list_elem_of_split in Hp as (l1 & l2 & ->).
  rewrite fmap_app, fmap_cons in Hs.
  apply StronglySorted_app in Hs as (_ & _ & Hs).
  apply StronglySorted_cons in Hs as [Hs _].
  unfold quantityAt. rewrite fold_left_app. simpl.
  fold (date_le (Period.date p) (Period.date p)).
  rewrite (date_le_refl (Period.date p)).
  induction l2 as [|p2 l2 IH]; simpl; [done|].
  rewrite fmap_cons in Hs. apply Forall_cons in Hs as [H2 Hs].
  destruct (String.leb (Period.date p2) (Period.date p)) eqn:E.
  - now apply date_lt_not_le in H2.
  - now apply IH.
Qed.

(** Every entry holds the final total of its timestamp: the sum of all the
    deltas dated at or before it. *)
Lemma timeline_entry_total (fb : list Booking.t)
    (las : list ListingAvailability.t) (nb : option Booking.t) (mq : option Z)
    (p : Period.t) :
  p ∈ timeline fb las nb mq ->
  Period.quantity p = sumDeltas (upTo (Period.date p) (dateSteps fb las nb)).
Proof.
  intros Hp. rewrite <- timeline_quantityAt with (mq := mq).
  symmetry. apply quantityAt_entry; [apply timeline_sorted|exact Hp].
Qed.

(** Every entry carries the tag of the first sorted step of its timestamp,
    the one that pushed it. *)
Lemma timeline_entry_tag (fb : list Booking.t)
    (las : list ListingAvailability.t) (nb : option Booking.t) (mq : option Z)
    (p : Period.t) :
  p ∈ timeline fb las nb mq ->
  exists l1 s l2,
    sortedSteps fb las nb = l1 ++ s :: l2
    /\ Step.date s = Period.date p
    /\ Step.newPeriod s = Period.newPeriod p
    /\ Forall (fun y => Step.date y <> Period.date p) l1.
Proof. apply (inv_tag _ _ _ _ (sortedSteps_inv fb las nb mq)). Qed.

Lemma dateSteps_candidate_last (fb : list Booking.t)
    (las : list ListingAvailability.t) (nb : option Booking.t) :
  dateSteps fb las nb
  = dateSteps fb las None ++ from_option newBookingSteps [] nb.
Proof. rewrite !dateSteps_flat. simpl. now rewrite app_nil_r, app_assoc. Qed.

Lemma dateSteps_untagged (fb : list Booking.t)
    (las : list ListingAvailability.t) :
  Forall (fun s => Step.newPeriod s = None) (dateSteps fb las None).
Proof.
  rewrite dateSteps_flat. simpl. rewrite app_nil_r. apply Forall_app. split.
  - induction fb as [|b fb IH]; simpl; repeat constructor. exact IH.
  - induction las as [|a las IH]; simpl; repeat constructor. exact IH.
Qed.

(** The general form of the defect behind C5: an entry whose timestamp is
    also a bound of a reservation or of a declaration never carries a tag,
    because the candidate's steps are pushed last and the sort is stable. *)
Lemma shared_timestamp_is_untagged (fb : list Booking.t)
    (las : list ListingAvailability.t) (nb : option Booking.t) (mq : option Z)
    (p : Period.t) :
  p ∈ timeline fb las nb mq ->
  Period.date p ∈ eventDates fb las None ->
  Period.newPeriod p = None.
Proof.
  intros Hp Hshared.
  destruct (timeline_entry_tag fb las nb mq p Hp)
    as (l1 & s & l2 & Hsorted & Hs & <- & Hl1).
  pose proof (sortBy_stable Step.date (Period.date p) (dateSteps fb las nb))
    as Hstable.
  fold (sortedSteps fb las nb) in Hstable.
  rewrite Hsorted, List.filter_app in Hstable. cbn [List.filter] in Hstable.
  rewrite (proj2 (String.eqb_eq _ _) Hs) in Hstable.
  replace (List.filter _ l1) with (@nil Step.t) in Hstable.
  2:{ symmetry. clear -Hl1. induction Hl1 as [|y l Hy _ IH]; [reflexivity|].
      simpl. now rewrite (proj2 (String.eqb_neq _ _) Hy). }
  rewrite dateSteps_candidate_last, List.filter_app in Hstable.
  rewrite <- dateSteps_dates in Hshared.
  apply list_elem_of_fmap in Hshared as (y & Hy & Hin).
  pose proof (dateSteps_untagged fb las) as Hun.
  induction Hun as [|z l Hz Hun IH].
  - now apply elem_of_nil in Hin.
  - cbn [List.filter app] in Hstable.
    destruct (String.eqb (Step.date z) (Period.date p)) eqn:E.
    + simpl in Hstable. injection Hstable as <- _. exact Hz.
    + apply IH; [|exact Hstable].
      apply elem_of_cons in Hin as [->|Hin]; [|exact Hin].
      apply String.eqb_neq in E. congruence.
Qed.

(** ** Admission in range mode *)

Lemma isAvailable_latch (subtractDay : date -> date) (fb : list Booking.t)
    (las : list ListingAvailability.t) (nb : option Booking.t)
    (mq : option Z) :
  PeriodsResult.isAvailable (getAvailabilityPeriods subtractDay fb las nb mq)
  = negb (bool_decide (is_Some nb)
          && existsb (fun q => exceeds q mq)
               (runningTotals 0 (sortedSteps fb las nb))).
Proof.
  rewrite getAvailabilityPeriods_eq. simpl.
  apply (inv_latch _ _ _ _ (sortedSteps_inv fb las nb mq)).
Qed.

(** C1, as stated, fails: a reservation of 5 units that is over on January 2
    breaches [maxQuantity = 2] on January 1 only, and the candidate of
    January 10 is refused although no entry at or after its start exceeds
    the ceiling. *)
Lemma breach_before_candidate_refuses :
  let r := getAvailabilityPeriods UtcDay.utcSubtractDay
             [Sample.pastBooking] [] (Some Sample.lateCandidate) (Some 2) in
  ~ (PeriodsResult.isAvailable r = false
     <-> breachFrom (Booking.startDate Sample.lateCandidate) 2
           (PeriodsResult.availablePeriods r) = true).
Proof.
  intros r [H _]. specialize (H eq_refl). vm_compute in H. discriminate H.
Qed.

(** C1, amended: with a candidate and a numeric [maxQuantity], an entry of
    the returned timeline (the anchor apart) whose quantity exceeds
    [maxQuantity] makes [isAvailable] false wherever it lies, before the
    candidate's start as well as after it; and when no two events share a
    timestamp, [isAvailable] is false only if such an entry exists. *)
Theorem latch_reads_the_whole_timeline (subtractDay : date -> date)
    (fb : list Booking.t) (las : list ListingAvailability.t)
    (nb : Booking.t) (m : Z) :
  let r := getAvailabilityPeriods subtractDay fb las (Some nb) (Some m) in
  (Exists (fun p => Period.quantity p > m)
     (tail (PeriodsResult.availablePeriods r)) ->
   PeriodsResult.isAvailable r = false)
  /\ (NoDup (eventDates fb las (Some nb)) ->
      PeriodsResult.isAvailable r = false ->
      Exists (fun p => Period.quantity p > m)
        (tail (PeriodsResult.availablePeriods r))).
Proof.
  intros r. subst r. rewrite isAvailable_latch.
  rewrite getAvailabilityPeriods_eq. cbn [PeriodsResult.availablePeriods].
  rewrite tail_withAnchor.
  pose proof (sortedSteps_inv fb las (Some nb) (Some m)) as Hinv.
  fold (timeline fb las (Some nb) (Some m)) in Hinv.
  assert (Hsome : bool_decide (is_Some (Some nb)) = true)
    by (apply bool_decide_eq_true; eauto).
  rewrite Hsome. cbn [andb]. split.
  - intros Hex. apply Exists_exists in Hex as (p & Hp & Hgt).
    apply negb_false_iff, existsb_exists. exists (Period.quantity p). split.
    + pose proof (inv_totals _ _ _ _ Hinv) as Htot.
      rewrite Forall_forall in Htot. apply list_elem_of_In, Htot, Hp.
    + simpl. lia.
  - intros Hnd Hfalse.
    apply negb_false_iff, existsb_exists in Hfalse as (q & Hq & Hgt).
    pose proof (inv_distinct _ _ _ _ Hinv) as Hdist.
    unfold timeline in *. rewrite <- Hdist in Hq.
    + apply list_elem_of_In, list_elem_of_fmap in Hq as (p & -> & Hp).
      apply Exists_exists. exists p. split; [exact Hp|]. simpl in Hgt. lia.
    + now rewrite sortedSteps_dates.
Qed.

Lemma latch_reads_the_whole_timeline_witness :
  let r := getAvailabilityPeriods UtcDay.utcSubtractDay
             [Sample.pastBooking] [] (Some Sample.lateCandidate) (Some 2) in
  PeriodsResult.isAvailable r = false
  /\ Exists (fun p => Period.quantity p > 2)
       (tail (PeriodsResult.availablePeriods r)).
Proof.
  intros r.
  destruct (latch_reads_the_whole_timeline UtcDay.utcSubtractDay
              [Sample.pastBooking] [] Sample.lateCandidate 2) as [H1 H2].
  assert (Hr : PeriodsResult.isAvailable r = false) by (vm_compute; reflexivity).
  split; [exact Hr|]. apply H2; [|exact Hr].
  vm_compute. repeat constructor; rewrite ?list_elem_of_In; simpl; intuition discriminate.
Defined.

(** C3 at its failing input: the ceiling is 1, a reservation of one unit
    runs from January 5 to 8 and the candidate of one unit runs from January
    2 to 5.  At January 5 the sweep adds the reservation's start before the
    candidate's end and reads the total 2 in between: the candidate is
    refused, although the final total of every timestamp is at most 1. *)
Lemma partial_total_read_at_shared_instant :
  let r := getAvailabilityPeriods UtcDay.utcSubtractDay
             [Sample.booked] [] (Some Sample.candidateBefore) (Some 1) in
  PeriodsResult.isAvailable r = false
  /\ PeriodsResult.availablePeriods r
     = [ Period.mk "2024-01-01T00:00:00.000Z" 0 None;
         Period.mk Sample.jan02 1 (Some PeriodStart);
         Period.mk Sample.jan05 1 None;
         Period.mk Sample.jan08 0 None ]
  /\ forallb (fun p => Period.quantity p <=? 1)
       (PeriodsResult.availablePeriods r) = true
  /\ runningTotals 0 (sortedSteps [Sample.booked] []
                        (Some Sample.candidateBefore))
     = [1; 2; 1; 0].
Proof. vm_compute. repeat split; reflexivity. Qed.

(** The same candidate placed after the reservation, from January 8 to 10,
    is admitted: there the reservation's end is read first. *)
Lemma adjacent_candidate_after_is_admitted :
  PeriodsResult.isAvailable
    (getAvailabilityPeriods UtcDay.utcSubtractDay [Sample.booked] []
       (Some (Booking.mk Sample.jan08 Sample.jan10 1)) (Some 1)) = true.
Proof. vm_compute. reflexivity. Qed.

(** C5 at its failing input: a reservation and the candidate both start on
    January 2.  The entry that survives at that timestamp is the one pushed
    for the reservation's step, which comes first in the sorted steps; the
    candidate's step only overwrites its quantity, and the tag ['start'] is
    absent from the returned timeline. *)
Lemma boundary_tag_lost_at_shared_instant :
  let r := getAvailabilityPeriods UtcDay.utcSubtractDay
             [Sample.running] [] (Some Sample.candidateSameStart) None in
  sortedSteps [Sample.running] [] (Some Sample.candidateSameStart)
  = [ Step.mk Sample.jan02 1 None;
      Step.mk Sample.jan02 1 (Some PeriodStart);
      Step.mk Sample.jan03 (-1) (Some PeriodEnd);
      Step.mk Sample.jan05 (-1) None ]
  /\ PeriodsResult.availablePeriods r
     = [ Period.mk "2024-01-01T00:00:00.000Z" 0 None;
         Period.mk Sample.jan02 2 None;
         Period.mk Sample.jan03 1 (Some PeriodEnd);
         Period.mk Sample.jan05 0 None ].
Proof. vm_compute. split; reflexivity. Qed.

(** The capacity examples of the specification: a reservation of 2 units
    from January 1 to 5 and a candidate of 1 unit from January 2 to 3 are
    refused under a ceiling of 2 and admitted under a ceiling of 3. *)
Example capacity_boundary :
  PeriodsResult.isAvailable
    (getAvailabilityPeriods UtcDay.utcSubtractDay
       [Booking.mk Sample.jan01 Sample.jan05 2] []
       (Some (Booking.mk Sample.jan02 Sample.jan03 1)) (Some 2)) = false
  /\ PeriodsResult.isAvailable
       (getAvailabilityPeriods UtcDay.utcSubtractDay
          [Booking.mk Sample.jan01 Sample.jan05 2] []
          (Some (Booking.mk Sample.jan02 Sample.jan03 1)) (Some 3)) = true.
Proof. vm_compute. split; reflexivity. Qed.

(** Two reservations that start at the same instant give one entry, which
    holds the sum of both. *)
Example coalescing_of_equal_starts :
  PeriodsResult.availablePeriods
    (getAvailabilityPeriods UtcDay.utcSubtractDay
       [Booking.mk Sample.jan02 Sample.jan05 1;
        Booking.mk Sample.jan02 Sample.jan08 2] [] None None)
  = [ Period.mk Sample.jan01 0 None;
      Period.mk Sample.jan02 3 None;
      Period.mk Sample.jan05 2 None;
      Period.mk Sample.jan08 0 None ].
Proof. vm_compute. reflexivity. Qed.

(** ** The anchor and the order of the timeline *)

(** C6: when the call has no event the returned list is empty; otherwise it
    starts with the anchor, of quantity 0 and dated one day (by the date
    arithmetic of moment) before the entry that follows it, and that entry
    is dated at the earliest date among the events of the call. *)
Theorem anchor_point (subtractDay : date -> date) (fb : list Booking.t)
    (las : list ListingAvailability.t) (nb : option Booking.t)
    (mq : option Z) :
  let r := getAvailabilityPeriods subtractDay fb las nb mq in
  (eventDates fb las nb = [] /\ PeriodsResult.availablePeriods r = [])
  \/ (exists first rest,
        PeriodsResult.availablePeriods r
        = Period.mk (subtractDay (Period.date first)) 0 None :: first :: rest
        /\ Period.date first ∈ eventDates fb las nb
        /\ Forall (date_le (Period.date first)) (eventDates fb las nb)).
Proof.
  intros r. subst r. rewrite getAvailabilityPeriods_eq.
  cbn [PeriodsResult.availablePeriods].
  pose proof (sortedSteps_inv fb las nb mq) as Hinv.
  pose proof (inv_head _ _ _ _ Hinv) as Hhead.
  pose proof (sortedSteps_dates fb las nb) as Hperm.
  pose proof (sortBy_sorted Step.date (dateSteps fb las nb)) as Hsorted.
  fold (sortedSteps fb las nb) in Hsorted.
  fold (timeline fb las nb mq) in Hhead.
  destruct (sortedSteps fb las nb) as [|s l] eqn:Es.
  - left. apply Permutation_nil in Hperm. split; [exact Hperm|].
    destruct (timeline fb las nb mq); [done|discriminate Hhead].
  - right. destruct (timeline fb las nb mq) as [|first rest];
      [discriminate Hhead|].
    simpl in Hhead. injection Hhead as Hfirst.
    exists first, rest. split; [reflexivity|]. rewrite Hfirst, <- Hperm. split.
    + left.
    + apply StronglySorted_cons in Hsorted as [Hall _].
      rewrite fmap_cons. constructor; [apply date_le_refl|].
      apply Forall_fmap. exact Hall.
Qed.

(** C7: the returned list, anchor included, is strictly increasing in date,
    provided the date arithmetic of moment puts the day before an event
    strictly before that event. *)
Theorem availablePeriods_strictly_ordered (subtractDay : date -> date)
    (fb : list Booking.t) (las : list ListingAvailability.t)
    (nb : option Booking.t) (mq : option Z) :
  (forall d, d ∈ eventDates fb las nb -> date_lt (subtractDay d) d) ->
  StronglySorted date_lt
    (Period.date <$>
       PeriodsResult.availablePeriods
         (getAvailabilityPeriods subtractDay fb las nb mq)).
Proof.
  intros Hsd. rewrite getAvailabilityPeriods_eq.
  cbn [PeriodsResult.availablePeriods].
  pose proof (timeline_sorted fb las nb mq) as Hs.
  pose proof (timeline_dates fb las nb mq) as Hd.
  destruct (timeline fb las nb mq) as [|first rest]; [constructor|].
  cbn [withAnchor]. rewrite fmap_cons. constructor; [exact Hs|].
  cbn [Period.date].
  assert (H0 : date_lt (subtractDay (Period.date first)) (Period.date first)).
  { apply Hsd, Hd. rewrite fmap_cons. left. }
  rewrite fmap_cons. constructor; [exact H0|].
  rewrite fmap_cons in Hs. apply StronglySorted_cons in Hs as [Hall _].
  eapply Forall_impl; [exact Hall|]. intros d. apply date_lt_trans, H0.
Qed.

Lemma availablePeriods_strictly_ordered_witness :
  StronglySorted date_lt
    (Period.date <$>
       PeriodsResult.availablePeriods
         (getAvailabilityPeriods UtcDay.utcSubtractDay
            [Sample.booked; Sample.running] [Sample.opening]
            (Some Sample.candidateSameStart) (Some 2))).
Proof.
  apply availablePeriods_strictly_ordered.
  intros d Hd. vm_compute in Hd.
  repeat (apply elem_of_cons in Hd as [->|Hd]; [vm_compute; reflexivity|]).
  now apply elem_of_nil in Hd.
Defined.

(** ** The buckets of date mode *)

Lemma addToDateStep_lookup (d' : date) (q : Z) (m : gmap string DateStep.t)
    (d : date) :
  addToDateStep d' q m !! d
  = if decide (d' = d)
    then Some (DateStep.addQuantity q
                 (default (DateStep.mk d 0 false) (m !! d)))
    else m !! d.
Proof.
  unfold addToDateStep. destruct (decide (d' = d)) as [->|Hne].
  - destruct (m !! d) as [x|] eqn:E.
    + rewrite lookup_alter_eq, E. reflexivity.
    + rewrite lookup_alter_eq, lookup_insert_eq. reflexivity.
  - rewrite lookup_alter_ne by exact Hne.
    destruct (m !! d') eqn:E; [reflexivity|].
    now rewrite lookup_insert_ne.
Qed.

Lemma addQuantity_add (q1 q2 : Z) (x : DateStep.t) :
  DateStep.addQuantity q2 (DateStep.addQuantity q1 x)
  = DateStep.addQuantity (q1 + q2) x.
Proof. unfold DateStep.addQuantity. simpl. f_equal. lia. Qed.

Lemma bookings_fold_lookup (fb : list Booking.t) (m : gmap string DateStep.t)
    (d : date) :
  fold_left (fun acc booking =>
    addToDateStep (Booking.startDate booking) (Booking.quantity booking) acc)
    fb m !! d
  = match m !! d with
    | Some x => Some (DateStep.addQuantity (bookedOn d fb) x)
    | None =>
        if bool_decide (d ∈ Booking.startDate <$> fb)
        then Some (DateStep.mk d (bookedOn d fb) false)
        else None
    end.
Proof.
  revert m. induction fb as [|b fb IH]; intros m.
  - simpl. destruct (m !! d) as [[d0 q0 s0]|]; [|reflexivity].
    unfold DateStep.addQuantity. simpl. do 2 f_equal. lia.
  - cbn [fold_left]. rewrite IH, addToDateStep_lookup.
    cbn [bookedOn foldr]. fold (bookedOn d fb).
    destruct (decide (Booking.startDate b = d)) as [Hd|Hd].
    + rewrite (proj2 (String.eqb_eq _ _) Hd).
      destruct (m !! d) as [x|]; cbn [default].
      * now rewrite addQuantity_add.
      * rewrite fmap_cons, bool_decide_eq_true_2 by (rewrite Hd; left).
        reflexivity.
    + rewrite (proj2 (String.eqb_neq _ _) Hd).
      destruct (m !! d) as [x|]; [reflexivity|].
      rewrite fmap_cons.
      destruct (bool_decide (d ∈ Booking.startDate <$> fb)) eqn:E.
      * apply bool_decide_eq_true in E.
        rewrite bool_decide_eq_true_2 by (now right). reflexivity.
      * apply bool_decide_eq_false in E.
        rewrite bool_decide_eq_false_2; [reflexivity|].
        intros [H|H]%elem_of_cons; congruence.
Qed.

Lemma bookedOn_absent (d : date) (fb : list Booking.t) :
  d ∉ Booking.startDate <$> fb -> bookedOn d fb = 0.
Proof.
  induction fb as [|b fb IH]; intros H; [reflexivity|].
  rewrite fmap_cons in H. apply not_elem_of_cons in H as [H1 H2].
  cbn [bookedOn foldr]. fold (bookedOn d fb). rewrite IH by exact H2.
  rewrite (proj2 (String.eqb_neq _ _)); [reflexivity|congruence].
Qed.

(** The dictionary of lines 567-594 holds, for each date that has an event,
    the bucket of that date, and nothing else. *)
Lemma dateBuckets_lookup (fb : list Booking.t) (nb : option Booking.t)
    (d : date) :
  dateBuckets fb nb !! d
  = if bool_decide (d ∈ bucketDates fb nb) then Some (bucketOf fb nb d)
    else None.
Proof.
  unfold dateBuckets, bucketDates, bucketOf. cbv zeta.
  destruct nb as [nb|]; cbn [from_option candidateOn].
  - destruct (decide (Booking.startDate nb = d)) as [Hd|Hd].
    + rewrite (proj2 (String.eqb_eq _ _) Hd).
      rewrite bool_decide_eq_true_2
        by (apply elem_of_app; right; rewrite Hd; left).
      rewrite Hd, lookup_alter_eq, addToDateStep_lookup, bookings_fold_lookup.
      rewrite decide_True by reflexivity. rewrite lookup_empty.
      destruct (bool_decide (d ∈ Booking.startDate <$> fb)) eqn:E;
        [reflexivity|].
      apply bool_decide_eq_false in E. now rewrite (bookedOn_absent d fb E).
    + rewrite (proj2 (String.eqb_neq _ _) Hd).
      rewrite lookup_alter_ne, addToDateStep_lookup by exact Hd.
      rewrite decide_False by exact Hd.
      rewrite bookings_fold_lookup, lookup_empty, Z.add_0_r.
      apply (f_equal (fun b : bool => if b then _ else _)).
      apply bool_decide_ext. rewrite elem_of_app, list_elem_of_singleton.
      split; [tauto|]. intros [H|H]; [exact H|congruence].
  - rewrite bookings_fold_lookup, lookup_empty, Z.add_0_r, app_nil_r.
    reflexivity.
Qed.

Lemma values_elem_of {V : Type} (m : gmap string V) (v : V) :
  v ∈ values m <-> exists k, m !! k = Some v.
Proof.
  unfold values. rewrite list_elem_of_fmap. split.
  - intros ([k v'] & -> & H). exists k. now apply elem_of_map_to_list.
  - intros [k H]. exists (k, v). split; [reflexivity|].
    now apply elem_of_map_to_list.
Qed.

Lemma dateBuckets_values_dates (fb : list Booking.t) (nb : option Booking.t) :
  DateStep.date <$> values (dateBuckets fb nb)
  = (map_to_list (dateBuckets fb nb)).*1.
Proof.
  unfold values. rewrite <- list_fmap_compose. apply list_fmap_ext.
  intros i [k v] H. apply list_elem_of_lookup_2, elem_of_map_to_list in H.
  rewrite dateBuckets_lookup in H. simpl.
  destruct (bool_decide _); [|discriminate H]. now injection H as <-.
Qed.

Lemma dateBuckets_values_NoDup (fb : list Booking.t) (nb : option Booking.t) :
  NoDup (DateStep.date <$> values (dateBuckets fb nb)).
Proof. rewrite dateBuckets_values_dates. apply NoDup_fst_map_to_list. Qed.

(** The enumeration order of [_.values] is immaterial: every enumeration of
    the buckets is sorted into the same list. *)
Lemma sortBy_values_any_order (fb : list Booking.t) (nb : option Booking.t)
    (enumeration : list DateStep.t) :
  enumeration ≡ₚ values (dateBuckets fb nb) ->
  sortBy DateStep.date enumeration
  = sortBy DateStep.date (values (dateBuckets fb nb)).
Proof.
  intros Hp. symmetry. apply sortBy_any_order; [now symmetry|].
  apply dateBuckets_values_NoDup.
Qed.

(** ** The index of the declarations *)

Lemma indexBy_fold_other (l : list ListingAvailability.t)
    (m : gmap string ListingAvailability.t) (d : date) :
  Forall (fun x => ListingAvailability.startDate x <> d) l ->
  fold_left (fun acc la => <[ListingAvailability.startDate la := la]> acc) l m
    !! d = m !! d.
Proof.
  revert m. induction l as [|a l IH]; intros m Hall; [reflexivity|].
  apply Forall_cons in Hall as [Ha Hall]. simpl.
  rewrite IH by exact Hall. now rewrite lookup_insert_ne.
Qed.

Lemma indexBy_last (l1 l2 : list ListingAvailability.t)
    (la : ListingAvailability.t) :
  Forall (fun x => ListingAvailability.startDate x
                   <> ListingAvailability.startDate la) l2 ->
  indexBy (l1 ++ la :: l2) !! ListingAvailability.startDate la = Some la.
Proof.
  intros Hall. unfold indexBy. rewrite fold_left_app. simpl.
  rewrite indexBy_fold_other by exact Hall. apply lookup_insert_eq.
Qed.

Lemma indexBy_none (l : list ListingAvailability.t) (d : date) :
  Forall (fun x => ListingAvailability.startDate x <> d) l ->
  indexBy l !! d = None.
Proof. intros Hall. unfold indexBy. now rewrite indexBy_fold_other. Qed.

Lemma indexBy_fold_quantity (l l' : list ListingAvailability.t)
    (m m' : gmap string ListingAvailability.t) (d : date) :
  Forall2 sameButAvailable l l' ->
  ListingAvailability.quantity <$> m !! d
  = ListingAvailability.quantity <$> m' !! d ->
  ListingAvailability.quantity <$>
    fold_left (fun acc la => <[ListingAvailability.startDate la := la]> acc)
      l m !! d
  = ListingAvailability.quantity <$>
      fold_left (fun acc la => <[ListingAvailability.startDate la := la]> acc)
        l' m' !! d.
Proof.
  intros H. revert m m'.
  induction H as [|a b l l' (Hs & _ & Hq) _ IH]; intros m m' Hm; [exact Hm|].
  simpl. apply IH. rewrite <- Hs.
  destruct (decide (ListingAvailability.startDate a = d)) as [->|Hne].
  - rewrite !lookup_insert_eq. simpl. now rewrite Hq.
  - now rewrite !lookup_insert_ne.
Qed.

Lemma indexBy_quantity (l l' : list ListingAvailability.t) (d : date) :
  Forall2 sameButAvailable l l' ->
  ListingAvailability.quantity <$> indexBy l !! d
  = ListingAvailability.quantity <$> indexBy l' !! d.
Proof. intros H. now apply indexBy_fold_quantity. Qed.

(** ** The result of [getAvailabilityDates] *)

Lemma getAvailabilityDates_returns (fb : list Booking.t)
    (las : list ListingAvailability.t) (nb : option Booking.t)
    (mq : option Z) :
  exists verdict,
    getAvailabilityDates fb las nb mq
    = Some (DatesResult.mk verdict (map pick las)
              (sortBy DateStep.date (values (dateBuckets fb nb))))
    /\ verdict
       = match nb, currentMaxQuantity las nb mq with
         | Some b, Some cur =>
             negb (DateStep.quantity (bucketOf fb nb (Booking.startDate b))
                   >? cur)
         | _, _ => true
         end.
Proof.
  unfold getAvailabilityDates. cbv zeta.
  destruct nb as [b|]; [|eauto].
  destruct (currentMaxQuantity las (Some b) mq) as [cur|]; [|eauto].
  rewrite dateBuckets_lookup.
  rewrite bool_decide_eq_true_2; [eauto|].
  unfold bucketDates. apply elem_of_app. right. left.
Qed.

Lemma candidate_bucket_total (fb : list Booking.t) (b : Booking.t) :
  DateStep.quantity (bucketOf fb (Some b) (Booking.startDate b))
  = bookedOn (Booking.startDate b) fb + Booking.quantity b.
Proof. unfold bucketOf. simpl. now rewrite String.eqb_refl. Qed.

(** C2: with a candidate and a global ceiling, the verdict of date mode
    compares the candidate date's bucket total (the reservations of that
    date plus the candidate) against the quantity of the declaration
    indexed at the candidate's date, the last of that date in the list;
    without such a declaration it compares it against the global ceiling. *)
Theorem declaration_overrides_ceiling (fb : list Booking.t)
    (las : list ListingAvailability.t) (nb : Booking.t) (m : Z) :
  let total := bookedOn (Booking.startDate nb) fb + Booking.quantity nb in
  let verdict :=
    DatesResult.isAvailable <$>
      getAvailabilityDates fb las (Some nb) (Some m) in
  (forall l1 la l2,
     las = l1 ++ la :: l2 ->
     ListingAvailability.startDate la = Booking.startDate nb ->
     Forall (fun x => ListingAvailability.startDate x <> Booking.startDate nb)
       l2 ->
     verdict = Some (negb (total >? ListingAvailability.quantity la)))
  /\ (Forall (fun x => ListingAvailability.startDate x <> Booking.startDate nb)
        las ->
      verdict = Some (negb (total >? m))).
Proof.
  intros total verdict. subst total verdict.
  destruct (getAvailabilityDates_returns fb las (Some nb) (Some m))
    as (v & -> & Hv).
  rewrite candidate_bucket_total in Hv. cbn [fmap option_fmap option_map
    DatesResult.isAvailable]. unfold currentMaxQuantity in Hv. split.
  - intros l1 la l2 -> Hd Hl2. rewrite <- Hd in Hv, Hl2.
    rewrite (indexBy_last l1 l2 la Hl2) in Hv. now rewrite Hv, Hd.
  - intros Hall. rewrite (indexBy_none las _ Hall) in Hv. now rewrite Hv.
Qed.

Lemma declaration_overrides_ceiling_witness :
  DatesResult.isAvailable <$>
    getAvailabilityDates [SampleDates.onFeb10 1] [SampleDates.declared]
      (Some (SampleDates.onFeb10 1)) (Some 10) = Some false
  /\ DatesResult.isAvailable <$>
       getAvailabilityDates [SampleDates.onFeb10 1] []
         (Some (SampleDates.onFeb10 1)) (Some 10) = Some true.
Proof.
  split.
  - apply (proj1 (declaration_overrides_ceiling [SampleDates.onFeb10 1]
                    [SampleDates.declared] (SampleDates.onFeb10 1) 10)
             [] SampleDates.declared []);
      [reflexivity|reflexivity|constructor].
  - apply (proj2 (declaration_overrides_ceiling [SampleDates.onFeb10 1]
                    [] (SampleDates.onFeb10 1) 10)).
    constructor.
Defined.

(** C4: date mode returns the buckets, one per date that has a reservation
    or the candidate, each holding the sum of the quantities of the
    reservations of its date, plus the candidate's when it falls on that
    date; the returned list holds exactly these buckets, by strictly
    increasing date. *)
Theorem availableDates_are_the_sorted_buckets (fb : list Booking.t)
    (las : list ListingAvailability.t) (nb : option Booking.t)
    (mq : option Z) :
  exists r,
    getAvailabilityDates fb las nb mq = Some r
    /\ StronglySorted date_lt (DateStep.date <$> DatesResult.availableDates r)
    /\ forall ds,
         ds ∈ DatesResult.availableDates r
         <-> exists d, d ∈ bucketDates fb nb /\ ds = bucketOf fb nb d.
Proof.
  destruct (getAvailabilityDates_returns fb las nb mq) as (v & -> & _).
  eexists. split; [reflexivity|]. cbn [DatesResult.availableDates]. split.
  - apply StronglySorted_fmap with (R1 := lt_by DateStep.date);
      [intros x y H; exact H|].
    apply sorted_le_lt; [apply sortBy_sorted|].
    rewrite sortBy_perm. apply dateBuckets_values_NoDup.
  - intros ds. rewrite sortBy_perm, values_elem_of. split.
    + intros [k Hk]. rewrite dateBuckets_lookup in Hk. exists k.
      destruct (bool_decide (k ∈ bucketDates fb nb)) eqn:E; [|discriminate Hk].
      apply bool_decide_eq_true in E. injection Hk as <-. now split.
    + intros (d & Hd & ->). exists d. rewrite dateBuckets_lookup.
      now rewrite bool_decide_eq_true_2.
Qed.

(** The grouping example of the specification: reservations of 1 and 2 on
    February 10, one on February 9, and a candidate of 1 on February 10. *)
Example availableDates_grouping :
  getAvailabilityDates
    [SampleDates.onFeb10 1; SampleDates.onFeb09 1; SampleDates.onFeb10 2] []
    (Some (SampleDates.onFeb10 1)) (Some 4)
  = Some (DatesResult.mk true []
            [ DateStep.mk Sample.feb09 1 false;
              DateStep.mk Sample.feb10 4 true ]).
Proof. vm_compute. reflexivity. Qed.

(** C10: date mode does not read the [available] field: two lists of
    declarations that agree on every other field give the same result. *)
Theorem getAvailabilityDates_ignores_available (fb : list Booking.t)
    (las las' : list ListingAvailability.t) (nb : option Booking.t)
    (mq : option Z) :
  Forall2 sameButAvailable las las' ->
  getAvailabilityDates fb las nb mq = getAvailabilityDates fb las' nb mq.
Proof.
  intros H.
  assert (Hpick : map pick las = map pick las').
  { induction H as [|a b l l' (Hs & _ & Hq) _ IH]; [reflexivity|].
    simpl. rewrite IH. unfold pick. now rewrite Hs, Hq. }
  assert (Hcur : currentMaxQuantity las nb mq = currentMaxQuantity las' nb mq).
  { unfold currentMaxQuantity. destruct nb as [b|], mq as [m|]; try reflexivity.
    pose proof (indexBy_quantity las las' (Booking.startDate b) H) as Hq.
    destruct (indexBy las !! Booking.startDate b),
      (indexBy las' !! Booking.startDate b); simpl in Hq; congruence. }
  unfold getAvailabilityDates. cbv zeta. now rewrite Hpick, Hcur.
Qed.

Lemma getAvailabilityDates_ignores_available_witness :
  getAvailabilityDates [SampleDates.onFeb10 1] [SampleDates.declared]
    (Some (SampleDates.onFeb10 1)) (Some 10)
  = getAvailabilityDates [SampleDates.onFeb10 1] [SampleDates.declaredClosed]
      (Some (SampleDates.onFeb10 1)) (Some 10).
Proof.
  apply getAvailabilityDates_ignores_available.
  constructor; [|constructor]. repeat split; reflexivity.
Defined.

(** ** Degenerate calls *)

(** C8: both functions return a result on every input (the range-mode
    function is total, and the property read of line 614 of date mode never
    fails), and the verdict is [true] whenever the candidate or the numeric
    [maxQuantity] is missing. *)
Theorem always_a_result_and_no_ceiling_admits (subtractDay : date -> date)
    (fb : list Booking.t) (las : list ListingAvailability.t)
    (nb : option Booking.t) (mq : option Z) :
  (exists periods dates,
     getAvailabilityPeriods subtractDay fb las nb mq = periods
     /\ getAvailabilityDates fb las nb mq = Some dates)
  /\ (nb = None \/ mq = None ->
      PeriodsResult.isAvailable
        (getAvailabilityPeriods subtractDay fb las nb mq) = true
      /\ DatesResult.isAvailable <$> getAvailabilityDates fb las nb mq
         = Some true).
Proof.
  destruct (getAvailabilityDates_returns fb las nb mq) as (v & Hr & Hv).
  split; [eauto|]. intros Hmissing. split.
  - rewrite isAvailable_latch.
    destruct Hmissing as [->| ->].
    + rewrite bool_decide_eq_false_2; [reflexivity|]. now intros [x Hx].
    + replace (existsb _ _) with false; [now rewrite andb_false_r|].
      symmetry. apply not_true_is_false. intros (q & _ & Hq)%existsb_exists.
      discriminate Hq.
  - rewrite Hr. simpl. f_equal. rewrite Hv.
    destruct Hmissing as [->| ->]; [reflexivity|].
    destruct nb as [b|]; reflexivity.
Qed.

Lemma always_a_result_and_no_ceiling_admits_witness :
  PeriodsResult.isAvailable
    (getAvailabilityPeriods UtcDay.utcSubtractDay
       [Sample.pastBooking] [Sample.opening] (Some Sample.lateCandidate) None)
  = true
  /\ DatesResult.isAvailable <$>
       getAvailabilityDates [Sample.pastBooking] [Sample.opening]
         (Some Sample.lateCandidate) None = Some true.
Proof.
  apply (proj2 (always_a_result_and_no_ceiling_admits UtcDay.utcSubtractDay
                  [Sample.pastBooking] [Sample.opening]
                  (Some Sample.lateCandidate) None)).
  right. reflexivity.
Defined.

(** The empty call: no reservation, no declaration, no candidate. *)
Example empty_call :
  getAvailabilityPeriods UtcDay.utcSubtractDay [] [] None (Some 1)
  = PeriodsResult.mk true []
  /\ getAvailabilityDates [] [] None (Some 1)
     = Some (DatesResult.mk true [] []).
Proof. vm_compute. split; reflexivity. Qed.

(** ** The sign of an availability declaration *)

Lemma result_quantityAt (subtractDay : date -> date) (fb : list Booking.t)
    (las : list ListingAvailability.t) (nb : option Booking.t)
    (mq : option Z) (t : date) :
  quantityAt
    (PeriodsResult.availablePeriods
       (getAvailabilityPeriods subtractDay fb las nb mq)) t
  = sumDeltas (upTo t (dateSteps fb las nb)).
Proof.
  rewrite getAvailabilityPeriods_eq. cbn [PeriodsResult.availablePeriods].
  rewrite quantityAt_withAnchor. apply timeline_quantityAt.
Qed.

Lemma dateSteps_insert_declaration (fb : list Booking.t)
    (l1 l2 : list ListingAvailability.t) (la : ListingAvailability.t)
    (nb : option Booking.t) :
  dateSteps fb (l1 ++ la :: l2) nb
  ≡ₚ availabilitySteps la ++ dateSteps fb (l1 ++ l2) nb.
Proof.
  rewrite !dateSteps_flat, !flat_map_app. cbn [flat_map].
  set (B := flat_map bookingSteps fb).
  set (L1 := flat_map availabilitySteps l1).
  set (L2 := flat_map availabilitySteps l2).
  set (N := from_option newBookingSteps [] nb).
  set (A := availabilitySteps la).
  rewrite <- !app_assoc.
  rewrite (app_assoc L1 A), (Permutation_app_comm L1 A), <- app_assoc.
  now rewrite (Permutation_app_swap_app B A).
Qed.

Lemma declaration_delta (la : ListingAvailability.t) (t : date) :
  ListingAvailability.available la = true ->
  sumDeltas (upTo t (availabilitySteps la))
  = (if String.leb (ListingAvailability.startDate la) t
     then - ListingAvailability.quantity la else 0)
    + (if String.leb (ListingAvailability.endDate la) t
       then ListingAvailability.quantity la else 0).
Proof.
  intros Ha. unfold availabilitySteps, upTo. rewrite Ha. simpl.
  destruct (String.leb (ListingAvailability.startDate la) t),
    (String.leb (ListingAvailability.endDate la) t);
    unfold sumDeltas; simpl; lia.
Qed.

(** C9: a declaration with [available = true] and quantity [q] over the
    window from [s] to [e], added anywhere among the declarations of a
    call, lowers the quantity that the returned timeline gives at every
    instant of the window by exactly [q], and leaves it unchanged at every
    instant from [e] on. *)
Theorem available_declaration_lowers_its_window (subtractDay : date -> date)
    (fb : list Booking.t) (l1 l2 : list ListingAvailability.t)
    (la : ListingAvailability.t) (nb : option Booking.t) (mq : option Z)
    (t : date) :
  ListingAvailability.available la = true ->
  date_le (ListingAvailability.startDate la) (ListingAvailability.endDate la) ->
  let declared :=
    PeriodsResult.availablePeriods
      (getAvailabilityPeriods subtractDay fb (l1 ++ la :: l2) nb mq) in
  let undeclared :=
    PeriodsResult.availablePeriods
      (getAvailabilityPeriods subtractDay fb (l1 ++ l2) nb mq) in
  (date_le (ListingAvailability.startDate la) t ->
   date_lt t (ListingAvailability.endDate la) ->
   quantityAt declared t
   = quantityAt undeclared t - ListingAvailability.quantity la)
  /\ (date_le (ListingAvailability.endDate la) t ->
      quantityAt declared t = quantityAt undeclared t).
Proof.
  intros Ha Hse declared undeclared. subst declared undeclared.
  rewrite !result_quantityAt.
  rewrite (sumDeltas_perm _ _
             (upTo_perm t _ _ (dateSteps_insert_declaration fb l1 l2 la nb))).
  rewrite upTo_app, sumDeltas_app, (declaration_delta la t Ha). split.
  - intros Hs He. apply date_lt_not_le in He. unfold date_le in Hs, He.
    rewrite Hs. destruct (String.leb (ListingAvailability.endDate la) t);
      [contradiction|lia].
  - intros He. pose proof (date_le_trans _ _ _ Hse He) as Hs.
    unfold date_le in Hs, He. rewrite Hs, He. lia.
Qed.

Lemma available_declaration_lowers_its_window_witness :
  let declared :=
    PeriodsResult.availablePeriods
      (getAvailabilityPeriods UtcDay.utcSubtractDay [Sample.pastBooking]
         [Sample.opening] (Some Sample.lateCandidate) (Some 2)) in
  let undeclared :=
    PeriodsResult.availablePeriods
      (getAvailabilityPeriods UtcDay.utcSubtractDay [Sample.pastBooking]
         [] (Some Sample.lateCandidate) (Some 2)) in
  quantityAt declared Sample.jan03 = quantityAt undeclared Sample.jan03 - 1
  /\ quantityAt declared Sample.jan08 = quantityAt undeclared Sample.jan08.
Proof.
  intros declared undeclared.
  destruct (available_declaration_lowers_its_window UtcDay.utcSubtractDay
              [Sample.pastBooking] [] [] Sample.opening
              (Some Sample.lateCandidate) (Some 2) Sample.jan03
              eq_refl eq_refl) as [Hin _].
  destruct (available_declaration_lowers_its_window UtcDay.utcSubtractDay
              [Sample.pastBooking] [] [] Sample.opening
              (Some Sample.lateCandidate) (Some 2) Sample.jan08
              eq_refl eq_refl) as [_ Hafter].
  split.
  - apply Hin; reflexivity.
  - apply Hafter; reflexivity.
Defined.

(** The entries of the declared run inside the window, read against the
    undeclared run. *)
Corollary available_declaration_lowers_entries (subtractDay : date -> date)
    (fb : list Booking.t) (l1 l2 : list ListingAvailability.t)
    (la : ListingAvailability.t) (nb : option Booking.t) (mq : option Z)
    (p : Period.t) :
  ListingAvailability.available la = true ->
  p ∈ timeline fb (l1 ++ la :: l2) nb mq ->
  date_le (ListingAvailability.startDate la) (Period.date p) ->
  date_lt (Period.date p) (ListingAvailability.endDate la) ->
  Period.quantity p
  = quantityAt
      (PeriodsResult.availablePeriods
         (getAvailabilityPeriods subtractDay fb (l1 ++ l2) nb mq))
      (Period.date p)
    - ListingAvailability.quantity la.
Proof.
  intros Ha Hp Hs He.
  rewrite <- (quantityAt_entry _ p (timeline_sorted _ _ _ _) Hp).
  rewrite result_quantityAt, timeline_quantityAt.
  rewrite (sumDeltas_perm _ _
             (upTo_perm _ _ _ (dateSteps_insert_declaration fb l1 l2 la nb))).
  rewrite upTo_app, sumDeltas_app, (declaration_delta la _ Ha).
  apply date_lt_not_le in He. unfold date_le in Hs, He. rewrite Hs.
  destruct (String.leb (ListingAvailability.endDate la) (Period.date p));
    [contradiction|lia].
Qed.

(** * Further properties of range mode *)

Lemma sumDeltas_dateSteps (fb : list Booking.t)
    (las : list ListingAvailability.t) (nb : option Booking.t) :
  sumDeltas (dateSteps fb las nb) = 0.
Proof.
  rewrite dateSteps_flat, !sumDeltas_app.
  assert (Hb : sumDeltas (flat_map bookingSteps fb) = 0).
  { induction fb as [|b fb IH]; [reflexivity|].
    cbn [flat_map]. rewrite sumDeltas_app, IH. unfold sumDeltas. simpl. lia. }
  assert (Ha : sumDeltas (flat_map availabilitySteps las) = 0).
  { induction las as [|a las IH]; [reflexivity|].
    cbn [flat_map]. rewrite sumDeltas_app, IH. unfold sumDeltas. simpl.
    destruct (ListingAvailability.available a); lia. }
  rewrite Hb, Ha. destruct nb as [b|]; unfold sumDeltas; simpl; lia.
Qed.

(** The step that pushed an entry is the first step of the entry's date in
    [dateSteps], the input order: the sort is stable. *)
Lemma timeline_entry_first_step (fb : list Booking.t)
    (las : list ListingAvailability.t) (nb : option Booking.t) (mq : option Z)
    (p : Period.t) :
  p ∈ timeline fb las nb mq ->
  exists s rest,
    List.filter (fun y => String.eqb (Step.date y) (Period.date p))
      (dateSteps fb las nb) = s :: rest
    /\ Step.newPeriod s = Period.newPeriod p.
Proof.
  intros Hp.
  destruct (timeline_entry_tag fb las nb mq p Hp)
    as (l1 & s & l2 & Hsorted & Hs & Htag & Hl1).
  pose proof (sortBy_stable Step.date (Period.date p) (dateSteps fb las nb))
    as Hstable.
  fold (sortedSteps fb las nb) in Hstable.
  rewrite Hsorted, List.filter_app in Hstable. cbn [List.filter] in Hstable.
  rewrite (proj2 (String.eqb_eq _ _) Hs) in Hstable.
  replace (List.filter _ l1) with (@nil Step.t) in Hstable.
  2:{ symmetry. clear -Hl1. induction Hl1 as [|y l Hy _ IH]; [reflexivity|].
      simpl. now rewrite (proj2 (String.eqb_neq _ _) Hy). }
  exists s. eexists. split; [symmetry; exact Hstable|exact Htag].
Qed.

Lemma filter_date_absent (d : date) (l : list Step.t) :
  d ∉ Step.date <$> l ->
  List.filter (fun y => String.eqb (Step.date y) d) l = [].
Proof.
  induction l as [|y l IH]; intros H; [reflexivity|].
  rewrite fmap_cons in H. apply not_elem_of_cons in H as [H1 H2].
  simpl. rewrite (proj2 (String.eqb_neq _ _)) by congruence. now apply IH.
Qed.

(** The tag of every entry, by its date. *)
Lemma timeline_entry_tagAt (fb : list Booking.t)
    (las : list ListingAvailability.t) (nb : option Booking.t) (mq : option Z)
    (p : Period.t) :
  p ∈ timeline fb las nb mq ->
  Period.newPeriod p = tagAt fb las nb (Period.date p).
Proof.
  intros Hp. unfold tagAt.
  destruct (bool_decide (Period.date p ∈ eventDates fb las None)) eqn:E.
  - apply bool_decide_eq_true in E.
    now apply (shared_timestamp_is_untagged fb las nb mq).
  - apply bool_decide_eq_false in E.
    destruct (timeline_entry_first_step fb las nb mq p Hp)
      as (s & rest & Hf & <-).
    rewrite dateSteps_candidate_last, List.filter_app in Hf.
    rewrite filter_date_absent in Hf by (now rewrite dateSteps_dates).
    assert (Hd : Period.date p ∈ eventDates fb las nb).
    { apply (timeline_dates fb las nb mq). now apply list_elem_of_fmap_2. }
    destruct nb as [b|]; [|contradiction].
    cbn [app from_option newBookingSteps List.filter Step.date] in Hf.
    destruct (String.eqb (Booking.startDate b) (Period.date p)).
    + now injection Hf as <- _.
    + destruct (String.eqb (Booking.endDate b) (Period.date p));
        [now injection Hf as <- _|discriminate Hf].
Qed.

(** X1.  Every entry after the anchor holds the net quantity of its date:
    the sum of the deltas of all the events (reservations, declarations,
    candidate) dated at or before it. *)
Theorem entries_hold_net_quantity (subtractDay : date -> date)
    (fb : list Booking.t) (las : list ListingAvailability.t)
    (nb : option Booking.t) (mq : option Z) :
  Forall (fun p =>
    Period.quantity p
    = sumDeltas (upTo (Period.date p)
                   (flat_map bookingSteps fb ++ flat_map availabilitySteps las
                    ++ from_option newBookingSteps [] nb)))
    (tail (PeriodsResult.availablePeriods
             (getAvailabilityPeriods subtractDay fb las nb mq))).
Proof.
  rewrite getAvailabilityPeriods_eq. cbn [PeriodsResult.availablePeriods].
  rewrite tail_withAnchor, <- dateSteps_flat. apply Forall_forall.
  intros p Hp. now apply (timeline_entry_total fb las nb mq).
Qed.

(** X2.  The entries after the anchor are dated at the dates of the events
    of the call, one entry per distinct date. *)
Theorem one_entry_per_event_date (subtractDay : date -> date)
    (fb : list Booking.t) (las : list ListingAvailability.t)
    (nb : option Booking.t) (mq : option Z) :
  let dates :=
    Period.date <$>
      tail (PeriodsResult.availablePeriods
              (getAvailabilityPeriods subtractDay fb las nb mq)) in
  NoDup dates /\ forall d, d ∈ dates <-> d ∈ eventDates fb las nb.
Proof.
  intros dates. subst dates. rewrite getAvailabilityPeriods_eq.
  cbn [PeriodsResult.availablePeriods]. rewrite tail_withAnchor. split.
  - pose proof (timeline_sorted fb las nb mq) as Hs.
    induction Hs as [|d l _ IH Hd]; constructor; [|exact IH].
    intros Hin. rewrite Forall_forall in Hd.
    exact (date_lt_irrefl d (Hd d Hin)).
  - apply timeline_dates.
Qed.

(** X3.  The timeline always comes back to 0: whatever the call, the last
    returned entry has quantity 0, since every event adds at its start what
    it removes at its end. *)
Theorem timeline_ends_at_zero (subtractDay : date -> date)
    (fb : list Booking.t) (las : list ListingAvailability.t)
    (nb : option Booking.t) (mq : option Z) :
  last (Period.quantity <$>
          PeriodsResult.availablePeriods
            (getAvailabilityPeriods subtractDay fb las nb mq))
  = match eventDates fb las nb with
    | [] => None
    | _ :: _ => Some 0
    end.
Proof.
  rewrite getAvailabilityPeriods_eq. cbn [PeriodsResult.availablePeriods].
  pose proof (sortedSteps_inv fb las nb mq) as Hinv.
  pose proof (inv_quantity _ _ _ _ Hinv) as Hq.
  rewrite (sumDeltas_perm _ _ (sortedSteps_perm fb las nb)) in Hq.
  rewrite sumDeltas_dateSteps in Hq.
  pose proof (sortedSteps_dates fb las nb) as Hperm.
  destruct (inv_shape _ _ _ _ Hinv)
    as [(Hl & Haps & _)|(l0 & x & init & lst & Hl & Haps & _ & _ & Hlast)].
  - unfold timeline. rewrite Haps. rewrite Hl in Hperm.
    apply Permutation_nil in Hperm. now rewrite Hperm.
  - unfold timeline. rewrite Haps. rewrite Hl in Hperm.
    destruct (eventDates fb las nb) as [|d ds].
    + apply Permutation_nil_r in Hperm. rewrite fmap_app in Hperm.
      now destruct (Step.date <$> l0).
    + destruct init as [|i0 init]; cbn [withAnchor app].
      * simpl. now rewrite Hlast, Hq.
      * rewrite !app_comm_cons, fmap_app. cbn [fmap list_fmap].
        rewrite last_snoc. now rewrite Hlast, Hq.
Qed.

(** X4.  Raising the ceiling never turns an admission into a refusal. *)
Theorem admission_monotone_in_ceiling (subtractDay : date -> date)
    (fb : list Booking.t) (las : list ListingAvailability.t)
    (nb : option Booking.t) (m m' : Z) :
  m <= m' ->
  PeriodsResult.isAvailable
    (getAvailabilityPeriods subtractDay fb las nb (Some m)) = true ->
  PeriodsResult.isAvailable
    (getAvailabilityPeriods subtractDay fb las nb (Some m')) = true.
Proof.
  intros Hm. rewrite !isAvailable_latch.
  destruct (bool_decide (is_Some nb)); [|reflexivity]. cbn [andb].
  rewrite !negb_true_iff. intros H. apply not_true_is_false.
  intros (q & Hq & Hgt)%existsb_exists.
  assert (Hex : existsb (fun q => exceeds q (Some m))
                  (runningTotals 0 (sortedSteps fb las nb)) = true).
  { apply existsb_exists. exists q. split; [exact Hq|]. simpl in *. lia. }
  congruence.
Qed.

Lemma admission_monotone_in_ceiling_witness :
  PeriodsResult.isAvailable
    (getAvailabilityPeriods UtcDay.utcSubtractDay
       [Booking.mk Sample.jan01 Sample.jan05 2] []
       (Some (Booking.mk Sample.jan02 Sample.jan03 1)) (Some 5)) = true.
Proof.
  apply (admission_monotone_in_ceiling UtcDay.utcSubtractDay
           [Booking.mk Sample.jan01 Sample.jan05 2] []
           (Some (Booking.mk Sample.jan02 Sample.jan03 1)) 3 5).
  - lia.
  - vm_compute. reflexivity.
Defined.

(** X5.  Tags come from the candidate only: without a candidate no
    returned entry carries a [newPeriod] tag. *)
Theorem no_candidate_no_tag (subtractDay : date -> date)
    (fb : list Booking.t) (las : list ListingAvailability.t) (mq : option Z) :
  Forall (fun p => Period.newPeriod p = None)
    (PeriodsResult.availablePeriods
       (getAvailabilityPeriods subtractDay fb las None mq)).
Proof.
  rewrite getAvailabilityPeriods_eq. cbn [PeriodsResult.availablePeriods].
  assert (H : Forall (fun p => Period.newPeriod p = None)
                (timeline fb las None mq)).
  { apply Forall_forall. intros p Hp.
    apply (shared_timestamp_is_untagged fb las None mq p Hp).
    apply (timeline_dates fb las None mq). now apply list_elem_of_fmap_2. }
  destruct (timeline fb las None mq); [constructor|].
  cbn [withAnchor]. constructor; [reflexivity|exact H].
Qed.

(** X6.  A bound of the candidate that no reservation and no declaration
    shares is marked in the timeline: the entry dated at the candidate's
    start carries ['start'], and the entry dated at its end, when the end
    differs from the start, carries ['end']. *)
Theorem isolated_boundaries_are_tagged (subtractDay : date -> date)
    (fb : list Booking.t) (las : list ListingAvailability.t)
    (b : Booking.t) (mq : option Z) :
  let periods :=
    PeriodsResult.availablePeriods
      (getAvailabilityPeriods subtractDay fb las (Some b) mq) in
  (Booking.startDate b ∉ eventDates fb las None ->
   exists p, p ∈ periods /\ Period.date p = Booking.startDate b
             /\ Period.newPeriod p = Some PeriodStart)
  /\ (Booking.endDate b ∉ eventDates fb las None ->
      Booking.endDate b <> Booking.startDate b ->
      exists p, p ∈ periods /\ Period.date p = Booking.endDate b
                /\ Period.newPeriod p = Some PeriodEnd).
Proof.
  intros periods. subst periods. rewrite getAvailabilityPeriods_eq.
  cbn [PeriodsResult.availablePeriods].
  assert (Hin : forall p, p ∈ timeline fb las (Some b) mq ->
                p ∈ withAnchor subtractDay (timeline fb las (Some b) mq)).
  { intros p Hp. destruct (timeline fb las (Some b) mq); [exact Hp|].
    cbn [withAnchor]. now right. }
  assert (Hex : forall d, d ∈ eventDates fb las (Some b) ->
                exists p, p ∈ timeline fb las (Some b) mq /\ Period.date p = d).
  { intros d Hd. apply (timeline_dates fb las (Some b) mq) in Hd.
    apply list_elem_of_fmap in Hd as (p & -> & Hp). eauto. }
  split.
  - intros Hfree. destruct (Hex (Booking.startDate b)) as (p & Hp & Hd).
    { unfold eventDates. rewrite !elem_of_app. right. right. left. }
    exists p. split; [auto|]. split; [exact Hd|].
    rewrite (timeline_entry_tagAt fb las (Some b) mq p Hp), Hd. unfold tagAt.
    rewrite bool_decide_eq_false_2 by exact Hfree.
    now rewrite String.eqb_refl.
  - intros Hfree Hne. destruct (Hex (Booking.endDate b)) as (p & Hp & Hd).
    { unfold eventDates. rewrite !elem_of_app. right. right. right. left. }
    exists p. split; [auto|]. split; [exact Hd|].
    rewrite (timeline_entry_tagAt fb las (Some b) mq p Hp), Hd. unfold tagAt.
    rewrite bool_decide_eq_false_2 by exact Hfree.
    rewrite (proj2 (String.eqb_neq _ _)) by congruence.
    now rewrite String.eqb_refl.
Qed.

Lemma isolated_boundaries_are_tagged_witness :
  let periods :=
    PeriodsResult.availablePeriods
      (getAvailabilityPeriods UtcDay.utcSubtractDay [Sample.booked] []
         (Some Sample.candidateBefore) None) in
  (exists p, p ∈ periods /\ Period.date p = Sample.jan02
             /\ Period.newPeriod p = Some PeriodStart).
Proof.
  apply (proj1 (isolated_boundaries_are_tagged UtcDay.utcSubtractDay
                  [Sample.booked] [] Sample.candidateBefore None)).
  vm_compute. intros H.
  repeat (apply elem_of_cons in H as [H|H]; [discriminate H|]).
  now apply elem_of_nil in H.
Defined.

(** ** The timeline does not depend on the order of the stored rows *)

Lemma dateSteps_perm (fb fb' : list Booking.t)
    (las las' : list ListingAvailability.t) (nb : option Booking.t) :
  fb ≡ₚ fb' -> las ≡ₚ las' -> dateSteps fb las nb ≡ₚ dateSteps fb' las' nb.
Proof.
  intros Hb Ha. rewrite !dateSteps_flat.
  apply Permutation_app; [now apply Permutation_flat_map|].
  apply Permutation_app; [now apply Permutation_flat_map|reflexivity].
Qed.

Lemma eventDates_perm (fb fb' : list Booking.t)
    (las las' : list ListingAvailability.t) (nb : option Booking.t) :
  fb ≡ₚ fb' -> las ≡ₚ las' -> eventDates fb las nb ≡ₚ eventDates fb' las' nb.
Proof.
  intros Hb Ha. rewrite <- !dateSteps_dates.
  now rewrite (dateSteps_perm fb fb' las las' nb Hb Ha).
Qed.

Lemma entryAt_perm (fb fb' : list Booking.t)
    (las las' : list ListingAvailability.t) (nb : option Booking.t)
    (d : date) :
  fb ≡ₚ fb' -> las ≡ₚ las' -> entryAt fb las nb d = entryAt fb' las' nb d.
Proof.
  intros Hb Ha. unfold entryAt, tagAt. f_equal.
  - apply sumDeltas_perm, upTo_perm, dateSteps_perm; assumption.
  - apply (f_equal (fun c : bool => if c then _ else _)).
    apply bool_decide_ext. now rewrite (eventDates_perm fb fb' las las' None).
Qed.

(** The entries of the timeline are the entries of the event dates. *)
Lemma timeline_elem_entryAt (fb : list Booking.t)
    (las : list ListingAvailability.t) (nb : option Booking.t) (mq : option Z)
    (p : Period.t) :
  p ∈ timeline fb las nb mq
  <-> exists d, d ∈ eventDates fb las nb /\ p = entryAt fb las nb d.
Proof.
  assert (Heq : forall q, q ∈ timeline fb las nb mq ->
                q = entryAt fb las nb (Period.date q)).
  { intros q Hq. unfold entryAt.
    rewrite <- (timeline_entry_total fb las nb mq q Hq).
    rewrite <- (timeline_entry_tagAt fb las nb mq q Hq). now destruct q. }
  split.
  - intros Hp. exists (Period.date p). split; [|now apply Heq].
    apply (timeline_dates fb las nb mq). now apply list_elem_of_fmap_2.
  - intros (d & Hd & ->). apply (timeline_dates fb las nb mq) in Hd.
    apply list_elem_of_fmap in Hd as (q & -> & Hq). now rewrite <- (Heq q Hq).
Qed.

Lemma sorted_by_date (tl : list Period.t) :
  StronglySorted date_lt (Period.date <$> tl) ->
  StronglySorted (lt_by Period.date) tl.
Proof.
  induction tl as [|p tl IH]; intros Hs; [constructor|].
  rewrite fmap_cons in Hs. apply StronglySorted_cons in Hs as [Hp Hs].
  constructor; [now apply IH|].
  rewrite Forall_fmap in Hp. exact Hp.
Qed.

Lemma sorted_dates_NoDup (l : list date) :
  StronglySorted date_lt l -> NoDup l.
Proof.
  induction 1 as [|d l _ IH Hd]; constructor; [|exact IH].
  intros Hin. rewrite Forall_forall in Hd.
  exact (date_lt_irrefl d (Hd d Hin)).
Qed.

Lemma timeline_perm (fb fb' : list Booking.t)
    (las las' : list ListingAvailability.t) (nb : option Booking.t)
    (mq mq' : option Z) :
  fb ≡ₚ fb' -> las ≡ₚ las' ->
  timeline fb las nb mq = timeline fb' las' nb mq'.
Proof.
  intros Hb Ha.
  apply (StronglySorted_unique_strong (lt_by Period.date)).
  - intros x y _ _ H1 H2. exfalso.
    apply (date_lt_irrefl (Period.date x)). eapply date_lt_trans; eauto.
  - apply sorted_by_date, timeline_sorted.
  - apply sorted_by_date, timeline_sorted.
  - apply NoDup_Permutation.
    + apply (NoDup_fmap_1 Period.date), sorted_dates_NoDup, timeline_sorted.
    + apply (NoDup_fmap_1 Period.date), sorted_dates_NoDup, timeline_sorted.
    + intros p. rewrite !timeline_elem_entryAt.
      split; intros (d & Hd & ->); exists d.
      * split; [now rewrite <- (eventDates_perm fb fb' las las' nb)|].
        now apply entryAt_perm.
      * split; [now rewrite (eventDates_perm fb fb' las las' nb)|].
        symmetry. now apply entryAt_perm.
Qed.

(** X7.  The returned timeline depends neither on the order in which the
    reservations and the declarations are listed nor on [maxQuantity]: only
    the verdict does. *)
Theorem availablePeriods_order_independent (subtractDay : date -> date)
    (fb fb' : list Booking.t) (las las' : list ListingAvailability.t)
    (nb : option Booking.t) (mq mq' : option Z) :
  fb ≡ₚ fb' -> las ≡ₚ las' ->
  PeriodsResult.availablePeriods
    (getAvailabilityPeriods subtractDay fb las nb mq)
  = PeriodsResult.availablePeriods
      (getAvailabilityPeriods subtractDay fb' las' nb mq').
Proof.
  intros Hb Ha. rewrite !getAvailabilityPeriods_eq.
  cbn [PeriodsResult.availablePeriods].
  now rewrite (timeline_perm fb fb' las las' nb mq mq' Hb Ha).
Qed.

(** The verdict, unlike the timeline, depends on the order of the rows: two
    adjacent reservations of one unit under a ceiling of 1 admit or refuse a
    distant candidate according to which of them is listed first. *)
Example verdict_depends_on_row_order :
  PeriodsResult.isAvailable
    (getAvailabilityPeriods UtcDay.utcSubtractDay
       [Sample.running; Sample.booked] [] (Some Sample.lateCandidate)
       (Some 1)) = true
  /\ PeriodsResult.isAvailable
       (getAvailabilityPeriods UtcDay.utcSubtractDay
          [Sample.booked; Sample.running] [] (Some Sample.lateCandidate)
          (Some 1)) = false.
Proof. vm_compute. split; reflexivity. Qed.

Lemma availablePeriods_order_independent_witness :
  PeriodsResult.availablePeriods
    (getAvailabilityPeriods UtcDay.utcSubtractDay
       [Sample.booked; Sample.running] [] (Some Sample.candidateBefore)
       (Some 1))
  = PeriodsResult.availablePeriods
      (getAvailabilityPeriods UtcDay.utcSubtractDay
         [Sample.running; Sample.booked] [] (Some Sample.candidateBefore)
         None).
Proof.
  apply availablePeriods_order_independent; [apply Permutation_swap|reflexivity].
Defined.

(** ** Admission and the requested quantity *)

Lemma insertBy_app_cons {A : Type} (f : A -> string) (x : A) (l1 : list A)
    (y : A) (l2 : list A) :
  insertBy f x (l1 ++ y :: l2)
  = if existsb (fun a => String.leb (f x) (f a)) l1 || String.leb (f x) (f y)
    then insertBy f x l1 ++ y :: l2
    else l1 ++ y :: insertBy f x l2.
Proof.
  induction l1 as [|a l1 IH]; cbn [app insertBy existsb orb].
  - now destruct (String.leb (f x) (f y)).
  - destruct (String.leb (f x) (f a)); [reflexivity|].
    cbn [orb]. rewrite IH.
    now destruct (existsb _ l1 || String.leb (f x) (f y)).
Qed.

(** Inserting a step into a sorted list that holds the two steps of the
    candidate keeps them in place; where the step lands depends on the
    dates only, not on the candidate's quantity. *)
Lemma insertBy_around_candidate (x s e s' e' : Step.t) (A B C : list Step.t) :
  Step.date s = Step.date s' -> Step.date e = Step.date e' ->
  exists A' B' C',
    insertBy Step.date x (A ++ s :: B ++ e :: C) = A' ++ s :: B' ++ e :: C'
    /\ insertBy Step.date x (A ++ s' :: B ++ e' :: C)
       = A' ++ s' :: B' ++ e' :: C'.
Proof.
  intros Hs He. rewrite !insertBy_app_cons, <- Hs, <- He.
  destruct (existsb _ A || String.leb (Step.date x) (Step.date s)).
  - exists (insertBy Step.date x A), B, C. done.
  - destruct (existsb _ B || String.leb (Step.date x) (Step.date e)).
    + exists A, (insertBy Step.date x B), C. done.
    + exists A, B, (insertBy Step.date x C). done.
Qed.

Lemma sortedSteps_around_candidate (fb : list Booking.t)
    (las : list ListingAvailability.t) (start finish : date) (q q' : Z) :
  date_le start finish ->
  exists A B C,
    sortedSteps fb las (Some (Booking.mk start finish q))
    = A ++ Step.mk start q (Some PeriodStart)
        :: B ++ Step.mk finish (- q) (Some PeriodEnd) :: C
    /\ sortedSteps fb las (Some (Booking.mk start finish q'))
       = A ++ Step.mk start q' (Some PeriodStart)
           :: B ++ Step.mk finish (- q') (Some PeriodEnd) :: C.
Proof.
  intros Hle. unfold sortedSteps. rewrite !(dateSteps_candidate_last fb las (Some _)).
  unfold sortBy. rewrite !foldr_app.
  cbn [from_option newBookingSteps foldr insertBy Booking.startDate
       Booking.endDate Booking.quantity Step.date].
  unfold date_le in Hle. rewrite Hle.
  induction (dateSteps fb las None) as [|x l (A & B & C & H1 & H2)].
  - exists [], [], []. done.
  - cbn [foldr]. rewrite H1, H2. now apply insertBy_around_candidate.
Qed.

Lemma runningTotals_exceed_mono (mq : option Z) (a a' : Z) (l : list Step.t) :
  a <= a' ->
  existsb (fun q => exceeds q mq) (runningTotals a l) = true ->
  existsb (fun q => exceeds q mq) (runningTotals a' l) = true.
Proof.
  revert a a'. induction l as [|s l IH]; intros a a' Ha; [done|].
  cbn [runningTotals existsb]. rewrite !orb_true_iff. intros [H|H].
  - left. destruct mq as [m|]; [|discriminate H]. simpl in *. lia.
  - right. apply (IH (a + Step.delta s)); [lia|exact H].
Qed.

(** X8.  A candidate whose end does not precede its start and that is
    admitted for a quantity is admitted for every smaller quantity over the
    same range: a refusal is never lifted by asking for more. *)
Theorem admission_monotone_in_quantity (subtractDay : date -> date)
    (fb : list Booking.t) (las : list ListingAvailability.t)
    (start finish : date) (q q' : Z) (mq : option Z) :
  date_le start finish -> q <= q' ->
  PeriodsResult.isAvailable
    (getAvailabilityPeriods subtractDay fb las
       (Some (Booking.mk start finish q')) mq) = true ->
  PeriodsResult.isAvailable
    (getAvailabilityPeriods subtractDay fb las
       (Some (Booking.mk start finish q)) mq) = true.
Proof.
  intros Hle Hq. rewrite !isAvailable_latch.
  rewrite !bool_decide_eq_true_2 by eauto. cbn [andb].
  rewrite !negb_true_iff. intros H'. apply not_true_is_false. intros H.
  destruct (sortedSteps_around_candidate fb las start finish q q' Hle)
    as (A & B & C & E1 & E2).
  rewrite E1 in H. rewrite E2 in H'.
  rewrite runningTotals_app in H, H'. cbn [runningTotals] in H, H'.
  rewrite runningTotals_app in H, H'. cbn [runningTotals Step.delta] in H, H'.
  rewrite !existsb_app in H, H'. cbn [existsb] in H, H'.
  rewrite !existsb_app in H, H'. cbn [existsb] in H, H'.
  replace (0 + sumDeltas A + q + sumDeltas B + - q)
    with (0 + sumDeltas A + q' + sumDeltas B + - q') in H by lia.
  rewrite !orb_false_iff in H'. destruct H' as (HA & (Hs & HB & He & HC)).
  rewrite HA, He, HC, !orb_false_r, orb_false_l in H.
  apply orb_true_iff in H as [H|H].
  - destruct mq as [m|]; [|discriminate H]. simpl in *. lia.
  - apply (runningTotals_exceed_mono mq _ (0 + sumDeltas A + q')) in H; [|lia].
    congruence.
Qed.

Lemma admission_monotone_in_quantity_witness :
  PeriodsResult.isAvailable
    (getAvailabilityPeriods UtcDay.utcSubtractDay
       [Booking.mk Sample.jan01 Sample.jan05 2] []
       (Some (Booking.mk Sample.jan02 Sample.jan03 1)) (Some 4)) = true.
Proof.
  apply (admission_monotone_in_quantity UtcDay.utcSubtractDay
           [Booking.mk Sample.jan01 Sample.jan05 2] []
           Sample.jan02 Sample.jan03 1 2 (Some 4)).
  - reflexivity.
  - lia.
  - vm_compute. reflexivity.
Defined.

(** * Further properties of date mode *)

Lemma sumBuckets_perm (l1 l2 : list DateStep.t) :
  l1 ≡ₚ l2 -> sumBuckets l1 = sumBuckets l2.
Proof.
  induction 1 as [| x l l' _ IH | x y l | l l' l'' _ IH1 _ IH2];
    unfold sumBuckets in *; simpl; lia.
Qed.

Lemma values_insert_fresh (m : gmap string DateStep.t) (d : date)
    (y : DateStep.t) :
  m !! d = None -> values (<[d := y]> m) ≡ₚ y :: values m.
Proof.
  intros H. unfold values. now rewrite (map_to_list_insert m d y H).
Qed.

Lemma values_alter (f : DateStep.t -> DateStep.t)
    (m : gmap string DateStep.t) (d : date) (x : DateStep.t) :
  m !! d = Some x ->
  values (alter f d m) ≡ₚ f x :: values (delete d m)
  /\ values m ≡ₚ x :: values (delete d m).
Proof.
  intros H. split.
  - rewrite <- (insert_id m d x H) at 1.
    rewrite alter_insert_eq, <- insert_delete_eq.
    apply values_insert_fresh, lookup_delete_eq.
  - unfold values. now rewrite <- (map_to_list_delete m d x H).
Qed.

Lemma addToDateStep_sum (d : date) (q : Z) (m : gmap string DateStep.t) :
  sumBuckets (values (addToDateStep d q m)) = sumBuckets (values m) + q.
Proof.
  unfold addToDateStep. destruct (m !! d) as [x|] eqn:E.
  - destruct (values_alter (DateStep.addQuantity q) m d x E) as [H1 H2].
    rewrite (sumBuckets_perm _ _ H1), (sumBuckets_perm _ _ H2).
    unfold sumBuckets. simpl. lia.
  - destruct (values_alter (DateStep.addQuantity q)
                (<[d := DateStep.mk d 0 false]> m) d (DateStep.mk d 0 false))
      as [H1 _]; [apply lookup_insert_eq|].
    rewrite (sumBuckets_perm _ _ H1).
    rewrite delete_insert_eq, (delete_id m d E).
    unfold sumBuckets. simpl. lia.
Qed.

Lemma select_sum (d : date) (m : gmap string DateStep.t) :
  sumBuckets (values (alter DateStep.select d m)) = sumBuckets (values m).
Proof.
  destruct (m !! d) as [x|] eqn:E.
  - destruct (values_alter DateStep.select m d x E) as [H1 H2].
    now rewrite (sumBuckets_perm _ _ H1), (sumBuckets_perm _ _ H2).
  - f_equal. f_equal. apply map_eq. intros k.
    destruct (decide (d = k)) as [<-|Hne].
    + now rewrite lookup_alter_eq, E.
    + now rewrite lookup_alter_ne.
Qed.

(** X9.  The grouping by date neither loses nor duplicates a quantity: the
    quantities of the returned buckets add up to the quantities of all the
    reservations, plus the candidate's. *)
Theorem buckets_conserve_quantity (fb : list Booking.t)
    (las : list ListingAvailability.t) (nb : option Booking.t)
    (mq : option Z) :
  (sumBuckets ∘ DatesResult.availableDates) <$>
    getAvailabilityDates fb las nb mq
  = Some (sumBookings fb + from_option Booking.quantity 0 nb).
Proof.
  destruct (getAvailabilityDates_returns fb las nb mq) as (v & -> & _).
  cbn [fmap option_fmap option_map compose DatesResult.availableDates].
  f_equal. rewrite (sumBuckets_perm _ _ (sortBy_perm _ _)).
  unfold dateBuckets. cbv zeta.
  assert (Hfold : forall l m,
    sumBuckets (values (fold_left (fun acc booking =>
      addToDateStep (Booking.startDate booking) (Booking.quantity booking) acc)
      l m)) = sumBuckets (values m) + sumBookings l).
  { induction l as [|b l IH]; intros m; cbn [fold_left].
    - unfold sumBookings. simpl. lia.
    - rewrite IH, addToDateStep_sum. unfold sumBookings. simpl. lia. }
  assert (Hempty : sumBuckets (values (∅ : gmap string DateStep.t)) = 0).
  { unfold values. now rewrite map_to_list_empty. }
  destruct nb as [b|]; cbn [from_option].
  - rewrite select_sum, addToDateStep_sum, Hfold, Hempty. lia.
  - rewrite Hfold, Hempty. lia.
Qed.

(** * Booking creation *)

(** An admitted candidate leaves every running total of the sweep, hence
    every entry of the timeline, within the ceiling. *)
Lemma admitted_entries_within_ceiling (subtractDay : date -> date)
    (fb : list Booking.t) (las : list ListingAvailability.t) (b : Booking.t)
    (m : Z) :
  PeriodsResult.isAvailable
    (getAvailabilityPeriods subtractDay fb las (Some b) (Some m)) = true ->
  Forall (fun p => Period.quantity p <= m)
    (tail (PeriodsResult.availablePeriods
             (getAvailabilityPeriods subtractDay fb las (Some b) (Some m)))).
Proof.
  rewrite isAvailable_latch, getAvailabilityPeriods_eq.
  cbn [PeriodsResult.availablePeriods]. rewrite tail_withAnchor.
  rewrite bool_decide_eq_true_2 by eauto. cbn [andb].
  rewrite negb_true_iff. intros H.
  pose proof (inv_totals _ _ _ _ (sortedSteps_inv fb las (Some b) (Some m)))
    as Htot.
  fold (timeline fb las (Some b) (Some m)) in Htot.
  eapply Forall_impl; [exact Htot|]. intros p Hp. cbn beta in Hp.
  destruct (Z_le_gt_dec (Period.quantity p) m) as [Hle|Hgt]; [exact Hle|].
  exfalso. apply not_true_iff_false in H. apply H.
  apply existsb_exists. exists (Period.quantity p).
  split; [now apply list_elem_of_In|]. simpl. lia.
Qed.

(** X10.  With a managed stock and a numeric ceiling, a range booking that
    [setBookingAvailability] lets through keeps its requested quantity,
    requests at most the ceiling, and leaves every entry of the timeline,
    the new booking included, at or below the ceiling. *)
Theorem flexible_booking_never_overbooks (subtractDay : date -> date)
    (listingType : ListingType.t) (m : Z) (fb : list Booking.t)
    (periods dates : list ListingAvailability.t) (start finish : date)
    (q r : Z) :
  hasStock listingType ->
  ListingType.TIME listingType = "TIME_FLEXIBLE" ->
  setBookingAvailability subtractDay listingType (Some m) fb periods dates
    start finish q = Returned r ->
  r = q /\ q <= m
  /\ Forall (fun p => Period.quantity p <= m)
       (tail (PeriodsResult.availablePeriods
                (getAvailabilityPeriods subtractDay fb
                   (periodDeclarations listingType periods)
                   (Some (Booking.mk start finish q)) (Some m)))).
Proof.
  intros [Hn Hu] Ht. unfold setBookingAvailability. cbv zeta.
  rewrite (proj2 (String.eqb_neq _ _) Hn), (proj2 (String.eqb_neq _ _) Hu), Ht.
  cbn [String.eqb Ascii.eqb Bool.eqb]. cbn [lessThan].
  destruct (m <? q) eqn:Emq; [discriminate|].
  fold (periodDeclarations listingType periods).
  destruct (PeriodsResult.isAvailable _) eqn:Eav; cbn [negb]; [|discriminate].
  intros [= <-]. split; [reflexivity|]. split; [lia|].
  now apply admitted_entries_within_ceiling.
Qed.

Lemma flexible_booking_never_overbooks_witness :
  1 <= 3
  /\ Forall (fun p => Period.quantity p <= 3)
       (tail (PeriodsResult.availablePeriods
                (getAvailabilityPeriods UtcDay.utcSubtractDay
                   [Booking.mk Sample.jan01 Sample.jan05 2]
                   (periodDeclarations SampleTypes.flexible [Sample.opening])
                   (Some (Booking.mk Sample.jan02 Sample.jan03 1)) (Some 3)))).
Proof.
  refine (proj2 (flexible_booking_never_overbooks UtcDay.utcSubtractDay
            SampleTypes.flexible 3 [Booking.mk Sample.jan01 Sample.jan05 2]
            [Sample.opening] [] Sample.jan02 Sample.jan03 1 1 _ _ _)).
  - split; discriminate.
  - reflexivity.
  - vm_compute. reflexivity.
Defined.

(** X11.  In predefined-date mode there is no check of the request against
    the global ceiling: when the date carries a declaration, the booking
    passes exactly when the reservations of the date plus the request fit
    the quantity of that declaration (the last one of the date), whatever
    the numeric [maxQuantity]; when the date carries none, exactly when they
    fit [maxQuantity]. *)
Theorem predefined_booking_bound (subtractDay : date -> date)
    (listingType : ListingType.t) (m : Z) (fb : list Booking.t)
    (periods dates : list ListingAvailability.t) (start finish : date)
    (q : Z) :
  hasStock listingType ->
  ListingType.TIME listingType = "TIME_PREDEFINED" ->
  let outcome :=
    setBookingAvailability subtractDay listingType (Some m) fb periods dates
      start finish q in
  let within (ceiling : Z) : Outcome Z :=
    if bookedOn start fb + q <=? ceiling then Returned q
    else Threw (HttpError 400 "Not available") in
  (forall l1 la l2,
     dates = l1 ++ la :: l2 ->
     ListingAvailability.startDate la = start ->
     Forall (fun x => ListingAvailability.startDate x <> start) l2 ->
     outcome = within (ListingAvailability.quantity la))
  /\ (Forall (fun x => ListingAvailability.startDate x <> start) dates ->
      outcome = within m).
Proof.
  intros [Hn Hu] Ht outcome within. subst outcome within.
  unfold setBookingAvailability. cbv zeta.
  rewrite (proj2 (String.eqb_neq _ _) Hn), (proj2 (String.eqb_neq _ _) Hu), Ht.
  cbn [String.eqb Ascii.eqb Bool.eqb].
  destruct (getAvailabilityDates_returns fb dates
              (Some (Booking.mk start "" q)) (Some m)) as (v & -> & Hv).
  rewrite candidate_bucket_total in Hv.
  cbn [DatesResult.isAvailable Booking.startDate Booking.quantity] in *.
  unfold currentMaxQuantity in Hv. cbn [Booking.startDate] in Hv.
  assert (Hgt : forall a c, negb (negb (a >? c)) = negb (a <=? c)).
  { intros a c. rewrite Z.gtb_ltb, Z.leb_antisym. now rewrite !negb_involutive. }
  split.
  - intros l1 la l2 -> <- Hl2.
    rewrite (indexBy_last l1 l2 la Hl2) in Hv. rewrite Hv, Hgt.
    now destruct (_ <=? _).
  - intros Hall. rewrite (indexBy_none dates _ Hall) in Hv. rewrite Hv, Hgt.
    now destruct (_ <=? _).
Qed.

Lemma predefined_booking_bound_witness :
  setBookingAvailability UtcDay.utcSubtractDay SampleTypes.predefined (Some 1)
    [SampleDates.onFeb10 1]
    [] [ListingAvailability.mk Sample.feb10 "" true 5] Sample.feb10 "" 3
  = Returned 3
  /\ setBookingAvailability UtcDay.utcSubtractDay SampleTypes.predefined
       (Some 1) [SampleDates.onFeb10 1] [] [] Sample.feb10 "" 3
     = Threw (HttpError 400 "Not available").
Proof.
  split.
  - apply (proj1 (predefined_booking_bound UtcDay.utcSubtractDay
                    SampleTypes.predefined 1 [SampleDates.onFeb10 1] []
                    [ListingAvailability.mk Sample.feb10 "" true 5]
                    Sample.feb10 "" 3 ltac:(split; discriminate) eq_refl)
             [] (ListingAvailability.mk Sample.feb10 "" true 5) []);
      [reflexivity|reflexivity|constructor].
  - apply (proj2 (predefined_booking_bound UtcDay.utcSubtractDay
                    SampleTypes.predefined 1 [SampleDates.onFeb10 1] []
                    [] Sample.feb10 "" 3 ltac:(split; discriminate) eq_refl)).
    constructor.
Defined.

(** X12.  Without a numeric ceiling ([maxQuantity] undefined) the function
    refuses nothing, whatever the listing type, the reservations and the
    declarations: it stores 1 for the availability modes NONE and UNIQUE and
    the requested quantity otherwise. *)
Theorem unlimited_stock_never_refuses (subtractDay : date -> date)
    (listingType : ListingType.t) (fb : list Booking.t)
    (periods dates : list ListingAvailability.t) (start finish : date)
    (q : Z) :
  setBookingAvailability subtractDay listingType None fb periods dates
    start finish q
  = Returned
      (if String.eqb (ListingType.AVAILABILITY listingType) "NONE"
          || String.eqb (ListingType.AVAILABILITY listingType) "UNIQUE"
       then 1 else q).
Proof.
  unfold setBookingAvailability. cbv zeta. cbn [lessThan].
  destruct (String.eqb (ListingType.AVAILABILITY listingType) "NONE");
    [reflexivity|].
  destruct (String.eqb (ListingType.AVAILABILITY listingType) "UNIQUE");
    [reflexivity|]. cbn [orb].
  destruct (String.eqb (ListingType.TIME listingType) "TIME_FLEXIBLE").
  - rewrite isAvailable_latch.
    replace (existsb _ _) with false; [now rewrite andb_false_r|].
    symmetry. apply not_true_is_false. intros (x & _ & Hx)%existsb_exists.
    discriminate Hx.
  - destruct (String.eqb (ListingType.TIME listingType) "TIME_PREDEFINED");
      [|reflexivity].
    destruct (getAvailabilityDates_returns fb dates
                (Some (Booking.mk start "" q)) None) as (v & -> & ->).
    reflexivity.
Qed.

(** X13.  The outcomes of [setBookingAvailability]: a returned quantity is 1
    for the availability modes NONE and UNIQUE and the requested quantity
    otherwise, and the only errors are the two 400 responses; in particular
    the bucket read of date mode never fails. *)
Theorem setBookingAvailability_outcomes (subtractDay : date -> date)
    (listingType : ListingType.t) (mq : option Z) (fb : list Booking.t)
    (periods dates : list ListingAvailability.t) (start finish : date)
    (q : Z) :
  let outcome :=
    setBookingAvailability subtractDay listingType mq fb periods dates
      start finish q in
  outcome
  = Returned
      (if String.eqb (ListingType.AVAILABILITY listingType) "NONE"
          || String.eqb (ListingType.AVAILABILITY listingType) "UNIQUE"
       then 1 else q)
  \/ outcome = Threw (HttpError 400 "Do not have enough quantity")
  \/ outcome = Threw (HttpError 400 "Not available").
Proof.
  intros outcome. subst outcome. unfold setBookingAvailability. cbv zeta.
  destruct (String.eqb (ListingType.AVAILABILITY listingType) "NONE");
    [now left|].
  destruct (String.eqb (ListingType.AVAILABILITY listingType) "UNIQUE").
  { destruct (lessThan mq q); [right; now left|now left]. }
  cbn [orb].
  destruct (String.eqb (ListingType.TIME listingType) "TIME_FLEXIBLE").
  { destruct (lessThan mq q); [right; now left|].
    destruct (PeriodsResult.isAvailable _); cbn [negb];
      [now left|right; now right]. }
  destruct (String.eqb (ListingType.TIME listingType) "TIME_PREDEFINED");
    [|now left].
  destruct (getAvailabilityDates_returns fb dates
              (Some (Booking.mk start "" q)) mq) as (v & -> & _).
  cbn [DatesResult.isAvailable].
  destruct v; cbn [negb]; [now left|right; now right].
Qed.

(** X14.  [checkBasic] passes exactly when the user is not the owner, the
    listing type id is non-zero and is one of the listing's types, the
    listing's quantity is non-zero, and the listing is validated and
    bookable. *)
Theorem checkBasic_passes_iff (isBookable : Listing.t -> bool)
    (listing : Listing.t) (userId : Z) (listingTypeId : option Z) :
  checkBasic isBookable listing userId listingTypeId = Returned tt
  <-> Listing.ownerId listing <> userId
      /\ (exists ty, listingTypeId = Some ty /\ ty <> 0
                     /\ ty ∈ Listing.listingTypesIds listing)
      /\ Listing.quantity listing <> 0
      /\ Listing.validated listing = true
      /\ isBookable listing = true.
Proof.
  unfold checkBasic.
  assert (Hinc : forall ty l, includes l ty = true <-> ty ∈ l).
  { intros ty l. unfold includes. rewrite existsb_exists. split.
    - intros (x & Hx & <-%Z.eqb_eq). now apply list_elem_of_In.
    - intros H. exists ty. split; [now apply list_elem_of_In|apply Z.eqb_refl]. }
  destruct (Z.eqb_spec (Listing.ownerId listing) userId) as [Ho|Ho].
  { split; [discriminate|]. intros (H & _). contradiction. }
  destruct (Nat.eqb_spec (length (Listing.listingTypesIds listing)) 0)
    as [Hl|Hl].
  { split; [discriminate|]. intros (_ & (ty & _ & _ & Hty) & _).
    destruct (Listing.listingTypesIds listing); [|discriminate Hl].
    now apply elem_of_nil in Hty. }
  destruct listingTypeId as [ty|].
  2:{ split; [discriminate|]. intros (_ & (ty & Hty & _) & _). discriminate. }
  destruct (Z.eqb_spec ty 0) as [H0|H0]; cbn [orb].
  { split; [discriminate|]. intros (_ & (t & [= <-] & Hne & _) & _).
    contradiction. }
  destruct (includes (Listing.listingTypesIds listing) ty) eqn:Ei; cbn [negb].
  2:{ split; [discriminate|]. intros (_ & (t & [= <-] & _ & Hin) & _).
      apply Hinc in Hin. congruence. }
  apply Hinc in Ei.
  destruct (Z.eqb_spec (Listing.quantity listing) 0) as [Hq|Hq].
  { split; [discriminate|]. intros (_ & _ & H & _). contradiction. }
  destruct (Listing.validated listing); cbn [negb].
  2:{ split; [discriminate|]. intros (_ & _ & _ & H & _). discriminate. }
  destruct (isBookable listing); cbn [negb].
  2:{ split; [discriminate|]. intros (_ & _ & _ & _ & H). discriminate. }
  split; [|reflexivity]. intros _. repeat split; eauto.
Qed.

(** * The effect of one event on the timeline *)

Lemma dateSteps_insert_booking (f1 f2 : list Booking.t) (b : Booking.t)
    (las : list ListingAvailability.t) (nb : option Booking.t) :
  dateSteps (f1 ++ b :: f2) las nb
  ≡ₚ bookingSteps b ++ dateSteps (f1 ++ f2) las nb.
Proof.
  rewrite !dateSteps_flat, !flat_map_app. cbn [flat_map].
  rewrite <- !app_assoc.
  now rewrite (Permutation_app_swap_app (flat_map bookingSteps f1)).
Qed.

Lemma window_delta (s e t : date) (q : Z) :
  date_le s e ->
  (if String.leb s t then q else 0) + (if String.leb e t then - q else 0)
  = if String.leb s t && negb (String.leb e t) then q else 0.
Proof.
  intros Hse. destruct (String.leb e t) eqn:Ee.
  - rewrite (date_le_trans s e t Hse Ee). simpl. lia.
  - destruct (String.leb s t); simpl; lia.
Qed.

Lemma booking_delta (b : Booking.t) (t : date) :
  sumDeltas (upTo t (bookingSteps b))
  = (if String.leb (Booking.startDate b) t then Booking.quantity b else 0)
    + (if String.leb (Booking.endDate b) t then - Booking.quantity b else 0).
Proof.
  unfold bookingSteps, upTo. simpl.
  destruct (String.leb (Booking.startDate b) t),
    (String.leb (Booking.endDate b) t); unfold sumDeltas; simpl; lia.
Qed.

Lemma closing_delta (la : ListingAvailability.t) (t : date) :
  ListingAvailability.available la = false ->
  sumDeltas (upTo t (availabilitySteps la))
  = (if String.leb (ListingAvailability.startDate la) t
     then ListingAvailability.quantity la else 0)
    + (if String.leb (ListingAvailability.endDate la) t
       then - ListingAvailability.quantity la else 0).
Proof.
  intros Ha. unfold availabilitySteps, upTo. rewrite Ha. simpl.
  destruct (String.leb (ListingAvailability.startDate la) t),
    (String.leb (ListingAvailability.endDate la) t);
    unfold sumDeltas; simpl; lia.
Qed.

Lemma in_window (s e t : date) :
  date_le s t -> date_lt t e ->
  String.leb s t && negb (String.leb e t) = true.
Proof.
  intros Hs He. apply date_lt_not_le in He. unfold date_le in Hs, He.
  rewrite Hs. now destruct (String.leb e t).
Qed.

Lemma out_of_window (s e t : date) :
  date_lt t s \/ date_le e t ->
  String.leb s t && negb (String.leb e t) = false.
Proof.
  intros [H|H].
  - apply date_lt_not_le in H. unfold date_le in H.
    now destruct (String.leb s t).
  - unfold date_le in H. rewrite H. apply andb_false_r.
Qed.

(** X15.  A reservation of quantity [q] over a range whose end does not
    precede its start, added anywhere among the reservations, raises the
    quantity that the timeline gives by exactly [q] at every instant of its
    range, and changes nothing before its start or from its end on. *)
Theorem reservation_raises_its_window (subtractDay : date -> date)
    (f1 f2 : list Booking.t) (b : Booking.t)
    (las : list ListingAvailability.t) (nb : option Booking.t)
    (mq : option Z) (t : date) :
  date_le (Booking.startDate b) (Booking.endDate b) ->
  let booked :=
    PeriodsResult.availablePeriods
      (getAvailabilityPeriods subtractDay (f1 ++ b :: f2) las nb mq) in
  let unbooked :=
    PeriodsResult.availablePeriods
      (getAvailabilityPeriods subtractDay (f1 ++ f2) las nb mq) in
  (date_le (Booking.startDate b) t -> date_lt t (Booking.endDate b) ->
   quantityAt booked t = quantityAt unbooked t + Booking.quantity b)
  /\ (date_lt t (Booking.startDate b) \/ date_le (Booking.endDate b) t ->
      quantityAt booked t = quantityAt unbooked t).
Proof.
  intros Hse booked unbooked. subst booked unbooked.
  rewrite !result_quantityAt.
  rewrite (sumDeltas_perm _ _
             (upTo_perm t _ _ (dateSteps_insert_booking f1 f2 b las nb))).
  rewrite upTo_app, sumDeltas_app, booking_delta, (window_delta _ _ _ _ Hse).
  split.
  - intros Hs He. rewrite (in_window _ _ _ Hs He). lia.
  - intros Hout. rewrite (out_of_window _ _ _ Hout). lia.
Qed.

Lemma reservation_raises_its_window_witness :
  let booked :=
    PeriodsResult.availablePeriods
      (getAvailabilityPeriods UtcDay.utcSubtractDay
         [Sample.pastBooking; Sample.booked] [] None None) in
  let unbooked :=
    PeriodsResult.availablePeriods
      (getAvailabilityPeriods UtcDay.utcSubtractDay
         [Sample.pastBooking] [] None None) in
  quantityAt booked Sample.jan05 = quantityAt unbooked Sample.jan05 + 1
  /\ quantityAt booked Sample.jan03 = quantityAt unbooked Sample.jan03.
Proof.
  intros booked unbooked. split.
  - apply (proj1 (reservation_raises_its_window UtcDay.utcSubtractDay
                    [Sample.pastBooking] [] Sample.booked [] None None
                    Sample.jan05 eq_refl)); reflexivity.
  - apply (proj2 (reservation_raises_its_window UtcDay.utcSubtractDay
                    [Sample.pastBooking] [] Sample.booked [] None None
                    Sample.jan03 eq_refl)).
    left. reflexivity.
Defined.

(** X16.  A declaration with [available = false] acts on the timeline as a
    reservation does: it raises the quantity by exactly its own quantity at
    every instant of its window and changes nothing outside. *)
Theorem closing_declaration_raises_its_window (subtractDay : date -> date)
    (fb : list Booking.t) (l1 l2 : list ListingAvailability.t)
    (la : ListingAvailability.t) (nb : option Booking.t) (mq : option Z)
    (t : date) :
  ListingAvailability.available la = false ->
  date_le (ListingAvailability.startDate la) (ListingAvailability.endDate la) ->
  let declared :=
    PeriodsResult.availablePeriods
      (getAvailabilityPeriods subtractDay fb (l1 ++ la :: l2) nb mq) in
  let undeclared :=
    PeriodsResult.availablePeriods
      (getAvailabilityPeriods subtractDay fb (l1 ++ l2) nb mq) in
  (date_le (ListingAvailability.startDate la) t ->
   date_lt t (ListingAvailability.endDate la) ->
   quantityAt declared t
   = quantityAt undeclared t + ListingAvailability.quantity la)
  /\ (date_lt t (ListingAvailability.startDate la)
      \/ date_le (ListingAvailability.endDate la) t ->
      quantityAt declared t = quantityAt undeclared t).
Proof.
  intros Ha Hse declared undeclared. subst declared undeclared.
  rewrite !result_quantityAt.
  rewrite (sumDeltas_perm _ _
             (upTo_perm t _ _ (dateSteps_insert_declaration fb l1 l2 la nb))).
  rewrite upTo_app, sumDeltas_app, (closing_delta la t Ha),
    (window_delta _ _ _ _ Hse).
  split.
  - intros Hs He. rewrite (in_window _ _ _ Hs He). lia.
  - intros Hout. rewrite (out_of_window _ _ _ Hout). lia.
Qed.

Lemma closing_declaration_raises_its_window_witness :
  let closed := ListingAvailability.mk Sample.jan02 Sample.jan05 false 2 in
  let declared :=
    PeriodsResult.availablePeriods
      (getAvailabilityPeriods UtcDay.utcSubtractDay [Sample.pastBooking]
         [closed] None None) in
  let undeclared :=
    PeriodsResult.availablePeriods
      (getAvailabilityPeriods UtcDay.utcSubtractDay [Sample.pastBooking]
         [] None None) in
  quantityAt declared Sample.jan03 = quantityAt undeclared Sample.jan03 + 2
  /\ quantityAt declared Sample.jan08 = quantityAt undeclared Sample.jan08.
Proof.
  intros closed declared undeclared. split.
  - apply (proj1 (closing_declaration_raises_its_window UtcDay.utcSubtractDay
                    [Sample.pastBooking] [] [] closed None None Sample.jan03
                    eq_refl eq_refl)); reflexivity.
  - apply (proj2 (closing_declaration_raises_its_window UtcDay.utcSubtractDay
                    [Sample.pastBooking] [] [] closed None None Sample.jan08
                    eq_refl eq_refl)).
    right. reflexivity.
Defined.

(** ** No negative quantity without an opening declaration *)

Lemma bookings_upTo_nonneg (fb : list Booking.t) (t : date) :
  Forall wellFormed fb -> 0 <= sumDeltas (upTo t (flat_map bookingSteps fb)).
Proof.
  induction 1 as [|b fb [Hq Hse] _ IH]; [unfold sumDeltas; simpl; lia|].
  cbn [flat_map]. rewrite upTo_app, sumDeltas_app, booking_delta.
  rewrite (window_delta _ _ _ _ Hse). destruct (_ && _); lia.
Qed.

Lemma closings_upTo_nonneg (las : list ListingAvailability.t) (t : date) :
  Forall closing las -> 0 <= sumDeltas (upTo t (flat_map availabilitySteps las)).
Proof.
  induction 1 as [|a las (Ha & Hq & Hse) _ IH]; [unfold sumDeltas; simpl; lia|].
  cbn [flat_map]. rewrite upTo_app, sumDeltas_app, (closing_delta a t Ha).
  rewrite (window_delta _ _ _ _ Hse). destruct (_ && _); lia.
Qed.

(** X17.  When every reservation and the candidate are well formed
    (non-negative quantity, end not before start) and every declaration is a
    well-formed closing one, no returned entry has a negative quantity: only
    declarations with [available = true] can bring the timeline below 0. *)
Theorem entries_nonnegative (subtractDay : date -> date)
    (fb : list Booking.t) (las : list ListingAvailability.t)
    (nb : option Booking.t) (mq : option Z) :
  Forall wellFormed fb -> Forall closing las ->
  from_option wellFormed True nb ->
  Forall (fun p => 0 <= Period.quantity p)
    (PeriodsResult.availablePeriods
       (getAvailabilityPeriods subtractDay fb las nb mq)).
Proof.
  intros Hfb Hlas Hnb. rewrite getAvailabilityPeriods_eq.
  cbn [PeriodsResult.availablePeriods].
  assert (H : Forall (fun p => 0 <= Period.quantity p)
                (timeline fb las nb mq)).
  { apply Forall_forall. intros p Hp.
    rewrite (timeline_entry_total fb las nb mq p Hp), dateSteps_flat.
    rewrite !upTo_app, !sumDeltas_app.
    pose proof (bookings_upTo_nonneg fb (Period.date p) Hfb).
    pose proof (closings_upTo_nonneg las (Period.date p) Hlas).
    assert (0 <= sumDeltas (upTo (Period.date p)
                              (from_option newBookingSteps [] nb))).
    { destruct nb as [b|]; [|unfold sumDeltas; simpl; lia].
      destruct Hnb as [Hq Hse]. cbn [from_option].
      unfold newBookingSteps, upTo. simpl.
      pose proof (window_delta _ _ (Period.date p) (Booking.quantity b) Hse)
        as Hw.
      destruct (String.leb (Booking.startDate b) (Period.date p)),
        (String.leb (Booking.endDate b) (Period.date p));
        unfold sumDeltas; simpl in *; lia. }
    lia. }
  destruct (timeline fb las nb mq); [constructor|].
  cbn [withAnchor]. constructor; [simpl; lia|exact H].
Qed.

Lemma entries_nonnegative_witness :
  Forall (fun p => 0 <= Period.quantity p)
    (PeriodsResult.availablePeriods
       (getAvailabilityPeriods UtcDay.utcSubtractDay
          [Sample.pastBooking; Sample.booked]
          [ListingAvailability.mk Sample.jan02 Sample.jan05 false 2]
          (Some Sample.candidateBefore) (Some 2))).
Proof.
  apply entries_nonnegative.
  - repeat constructor; simpl; lia.
  - repeat constructor; simpl; lia.
  - split; [simpl; lia|reflexivity].
Defined.
